(** * dispatches.workflow.workflow: managed data workflows

    A shallow embedding of [src/dispatches/workflow/workflow.py]:
    [Dataset], [DatasetFactory], [OutputCollector] and [ManagedWorkflow],
    followed by the properties of the specification that were checked
    against it.

    Python objects that the module mutates in place ([Dataset._meta], the
    DMF store, the resources' relation lists) are modelled by explicit
    state passing; an exception is a left injection that keeps the state
    reached when it was raised. *)

From Stdlib Require Import ZArith Ascii String.
From Stdlib.Strings Require Import Byte.
From stdpp Require Import gmap strings list fin_maps pretty.

Open Scope string_scope.
Open Scope list_scope.

(** ** Exceptions and fallible results *)

(** The Python exceptions the module raises itself or lets escape. *)
Inductive exn : Type :=
| ValueError (msg : string)
| KeyError (msg : string)
| TypeError (msg : string)
| AttributeError (msg : string)
| UnicodeDecodeError
| ExternalError (msg : string).

(** [inl e] is "raise e", [inr a] is "return a". *)
Definition Result (A : Type) : Type := (exn + A)%type.

Definition rbind {A B} (r : Result A) (k : A → Result B) : Result B :=
  match r with
  | inl e => inl e
  | inr a => k a
  end.

Fixpoint rmapM {A B} (f : A → Result B) (l : list A) : Result (list B) :=
  match l with
  | [] => inr []
  | x :: xs => rbind (f x) (λ y, rbind (rmapM f xs) (λ ys, inr (y :: ys)))
  end.

(** ** Paths ([pathlib.Path], POSIX flavour) *)

(** A path is its root ([""] when relative, ["/"], or ["//"]) and its
    components; pathlib drops empty components and ["."]. *)
Record Path : Type := mkPath { root : string; parts : list string }.

Fixpoint components (s : string) : list string :=
  match s with
  | "" => [""]
  | String c s' =>
      if Ascii.eqb c "/"%char then "" :: components s'
      else match components s' with
           | [] => [String c ""]
           | x :: xs => String c x :: xs
           end
  end.

Definition keep_component (c : string) : bool :=
  negb (String.eqb c "" || String.eqb c ".").

Definition parse_root (s : string) : string :=
  match s with
  | String "/" (String "/" (String "/" _)) => "/"
  | String "/" (String "/" _) => "//"
  | String "/" _ => "/"
  | _ => ""
  end.

(** [Path(s)] *)
Definition Path_of_string (s : string) : Path :=
  {| root := parse_root s; parts := List.filter keep_component (components s) |}.

Fixpoint join_parts (l : list string) : string :=
  match l with
  | [] => ""
  | [x] => x
  | x :: xs => x +:+ "/" +:+ join_parts xs
  end.

(** [str(p)] *)
Definition path_str (p : Path) : string :=
  match parts p with
  | [] => if String.eqb (root p) "" then "." else root p
  | l => root p +:+ join_parts l
  end.

(** [p.name]: the last component, [""] when there is none. *)
Definition path_name (p : Path) : string := List.last (parts p) "".

(** [p.parent]: the path without its last component. *)
Definition path_parent (p : Path) : Path :=
  {| root := root p; parts := removelast (parts p) |}.

(** [p / s]: an absolute right operand replaces the left one. *)
Definition path_join (p : Path) (s : string) : Path :=
  let q := Path_of_string s in
  if String.eqb (root q) "" then {| root := root p; parts := parts p ++ parts q |}
  else q.

(** ** Resources and relations of the DMF (idaes.dmf.resource) *)

(** Resource identifiers. The DMF draws them from a UUID generator; the
    model draws them from a counter held in the state (see [World]). *)
Definition rid : Type := N.

Record Datafile : Type := mkDatafile { df_path : string; df_desc : string }.

Record Resource : Type := mkResource {
  id_ : rid;
  r_name : string;
  r_desc : string;
  datafiles : list Datafile;
  datafiles_dir : string
}.

Inductive Predicates : Type := uses | derived.

Record Relation : Type := mkRelation {
  subject : rid;
  predicate : Predicates;
  object : rid
}.

Global Instance Predicates_eq_dec : EqDecision Predicates.
Proof. solve_decision. Defined.

(** ** Python values stored in dataset metadata and keyword arguments *)

Inductive Value : Type :=
| VNone
| VStr (s : string)
| VPath (p : Path)
| VList (l : list string)
| VResource (r : Resource).

Definition DatasetType_RTS_GMLC : string := "rts-gmlc".

(** ** class Dataset *)

Record Dataset : Type := mkDataset { name : string; _meta : gmap string Value }.

(** [Dataset.__init__] *)
Definition Dataset_init (name : string) : Dataset :=
  {| name := name; _meta := ∅ |}.

(** [Dataset.meta]: a copy of the metadata. *)
Definition meta (ds : Dataset) : gmap string Value := _meta ds.

(** [Dataset.add_meta] *)
Definition add_meta (key : string) (value : Value) (ds : Dataset) : Dataset :=
  {| name := name ds; _meta := <[key := value]> (_meta ds) |}.

(** [Dataset.resource_id]: [._meta["resource"].id]; only a resource has
    an [id] attribute. *)
Definition resource_id (ds : Dataset) : Result (option rid) :=
  match _meta ds !! "resource" with
  | None => inr None
  | Some (VResource r) => inr (Some (id_ r))
  | Some _ => inl (AttributeError "id")
  end.

(** [Dataset.resource] (getter): [self._meta.get("resource", None)] *)
Definition resource (ds : Dataset) : Value :=
  default VNone (_meta ds !! "resource").

Definition resource_set_twice_msg : string :=
  "Cannot set 'resource' on a dataset more than once".

(** [Dataset.resource] (setter). The dataset is returned also when the
    setter raises: it is the object as the raise leaves it. *)
Definition resource_setter (value : Value) (ds : Dataset) : Result unit * Dataset :=
  match _meta ds !! "resource" with
  | Some _ => (inl (ValueError resource_set_twice_msg), ds)
  | None => (inr (), {| name := name ds; _meta := <["resource" := value]> (_meta ds) |})
  end.

(** [Dataset.from_resource] *)
Definition from_resource (r : Resource) : Result Dataset :=
  let ds := Dataset_init (r_name r) in
  let ds := add_meta "directory" (VStr (datafiles_dir r)) ds in
  let ds := add_meta "files" (VList (df_path <$> datafiles r)) ds in
  match resource_setter (VResource r) ds with
  | (inl e, _) => inl e
  | (inr _, ds) => inr ds
  end.

(** ** class DatasetFactory *)

(** Keyword arguments of a creation function. *)
Abbreviation kwargs_t := (gmap string Value).

Section DatasetFactory.
(** What the module takes from outside: [Path.resolve] (it reads the
    file system), [rts_gmlc.download] and [os.listdir]. *)
Variable resolve : Path → Path.
Variable rts_gmlc_download : option Value → Result Value.
Variable os_listdir : Value → Result (list string).


Definition download_fn (name : string) (kwargs : kwargs_t) : Result Dataset :=
  rbind (rts_gmlc_download (kwargs !! "target_path")) (λ rts_gmlc_dir,
  let dataset := Dataset_init name in
  let dataset := add_meta "directory" rts_gmlc_dir dataset in
  rbind (os_listdir rts_gmlc_dir) (λ files,
  inr (add_meta "files" (VList files) dataset))).

Definition null_fn (kwargs : kwargs_t) : Result Dataset :=
  inr (Dataset_init "null").

(** [fn(path: Path, **kwargs)]: [path] is required, and must have the
    attributes [name] and [parent] of a path. *)
Definition script_fn (kwargs : kwargs_t) : Result Dataset :=
  match kwargs !! "path" with
  | None => inl (TypeError "fn() missing 1 required positional argument: 'path'")
  | Some (VPath path) =>
      let dataset := Dataset_init ("script:" +:+ path_name path) in
      let dataset := add_meta "directory" (VPath (resolve (path_parent path))) dataset in
      let dataset := add_meta "files" (VList [path_name path]) dataset in
      inr dataset
  | Some _ => inl (AttributeError "name")
  end.

(** [DatasetFactory._get_factory_function] *)
Definition _get_factory_function (name : string) : Result (kwargs_t → Result Dataset) :=
  if String.eqb name DatasetType_RTS_GMLC then inr (download_fn name)
  else if String.eqb name "null" then inr null_fn
  else if String.eqb name "script" then inr script_fn
  else inl (KeyError name).

(** [DatasetFactory.__init__]: the factory is its [create] function. *)
Definition DatasetFactory_init (type_ : string) : Result (kwargs_t → Result Dataset) :=
  match _get_factory_function type_ with
  | inl (KeyError _) => inl (KeyError ("Cannot create dataset of type '" +:+ type_ +:+ "'"))
  | r => r
  end.
End DatasetFactory.

(** ** class OutputCollector *)

(** A line read from a subprocess stream: raw bytes. *)
Definition bytes : Type := list byte.

Definition is_continuation (b : N) : bool := (128 <=? b)%N && (b <=? 191)%N.

(** Strict UTF-8 well-formedness, as [bytes.decode('utf-8')] checks it:
    no overlong forms, no surrogates, nothing above U+10FFFF. *)
Fixpoint utf8_valid (l : list N) : bool :=
  match l with
  | [] => true
  | b0 :: l1 =>
      if (b0 <? 128)%N then utf8_valid l1
      else if (194 <=? b0)%N && (b0 <=? 223)%N then
        match l1 with
        | b1 :: l2 => is_continuation b1 && utf8_valid l2
        | _ => false
        end
      else if (224 <=? b0)%N && (b0 <=? 239)%N then
        match l1 with
        | b1 :: b2 :: l3 =>
            is_continuation b1 && is_continuation b2
            && negb ((b0 =? 224)%N && (b1 <? 160)%N)
            && negb ((b0 =? 237)%N && (160 <=? b1)%N)
            && utf8_valid l3
        | _ => false
        end
      else if (240 <=? b0)%N && (b0 <=? 244)%N then
        match l1 with
        | b1 :: b2 :: b3 :: l4 =>
            is_continuation b1 && is_continuation b2 && is_continuation b3
            && negb ((b0 =? 240)%N && (b1 <? 144)%N)
            && negb ((b0 =? 244)%N && (144 <=? b1)%N)
            && utf8_valid l4
        | _ => false
        end
      else false
  end.

(** [line.decode('utf-8')]: the text is kept in its UTF-8 encoding;
    [None] is [UnicodeDecodeError]. *)
Definition decode_utf8 (line : bytes) : option string :=
  if utf8_valid (Byte.to_N <$> line) then Some (string_of_list_byte line) else None.

(** A compiled regular expression, known by its [search] method (the
    truth value of the match object it returns). *)
Record Pattern : Type := mkPattern { search : string → bool }.

(** What [self._delim] can hold: a pattern over text, or a pattern over
    bytes (compiled from a bytes object), whose [search] refuses a [str]
    with a [TypeError]. *)
Inductive Delimiter : Type :=
| str_pattern (p : Pattern)
| bytes_pattern (p : Pattern).

Coercion str_pattern : Pattern >-> Delimiter.

(** A pattern where [_delim] is expected is read as a pattern over text. *)
Arguments Some {A} & a.

(** The argument [phase_delim] of the constructor, by what the
    constructor tests: its truth value and its attributes. A [str] and a
    [bytes] (or [bytearray]) object have [lower] and are falsy when
    empty; a compiled pattern, over text or over bytes, has [search] and
    is truthy; [PD_Other] is an object with neither attribute. *)
Inductive PhaseDelim : Type :=
| PD_None
| PD_Str (s : string)
| PD_Bytes (b : bytes)
| PD_Pattern (d : Delimiter)
| PD_Other (truthy : bool).

(** The arguments [stderr] and [stdout] of the constructor. *)
Inductive StreamArg : Type :=
| ArgTrue
| ArgFalse
| ArgDest (filename : string).

(** Open text files a worker writes to. *)
Inductive handle : Type :=
| sys_stdout
| sys_stderr
| opened (filename : string).

(** An entry of [self._methods]: the bound method and its arguments.
    [progress] is [None] for the Python value [False]. *)
Inductive Method : Type :=
| M_redirect (dest : handle) (progress : option handle)
| M_vanish.

(** [_delim = None]: the attribute was never assigned. *)
Record OutputCollector : Type := mkOutputCollector {
  _delim : option Delimiter;
  _methods : gmap string Method
}.

(** What a stream worker did, by call site in [_redirect]. *)
Inductive event : Type :=
| dest_write (dest : handle) (s : string)
| progress_write (progress : handle) (s : string)
| progress_flush (progress : handle).

(** Outcome of one stream worker: its calls in order, the lines it left
    unread, whether it closed the stream, and the exception that ended
    it, if any. *)
Record Worker : Type := mkWorker {
  events : list event;
  unread : list bytes;
  closed : bool;
  raised : option exn
}.

Definition worker_raise (e : exn) (evs : list event) (rest : list bytes) : Worker :=
  {| events := evs; unread := rest; closed := false; raised := Some e |}.

Definition worker_then (evs : list event) (w : Worker) : Worker :=
  {| events := evs ++ events w; unread := unread w; closed := closed w; raised := raised w |}.

Section OutputCollector.
(** [re.compile] *)
Variable re_compile : string → Result Pattern.

Definition method_for (name : string) (arg : StreamArg) : Method :=
  match arg with
  | ArgTrue =>
      M_redirect (if String.eqb name "err" then sys_stderr else sys_stdout) None
  | ArgFalse => M_vanish
  | ArgDest filename => M_redirect (opened filename) (Some sys_stdout)
  end.

(** [OutputCollector.__init__]. Whatever has [lower] is handed to
    [re.compile] (for a bytes object the result is a pattern over
    bytes); whatever else has [search] becomes [_delim] as it is. *)
Definition OutputCollector_init (phase_delim : PhaseDelim) (stderr stdout : StreamArg)
  : Result OutputCollector :=
  rbind (match phase_delim with
         | PD_None | PD_Str "" | PD_Bytes [] | PD_Other false => inr None
         | PD_Str s => rbind (re_compile s) (λ p, inr (Some (str_pattern p)))
         | PD_Bytes b =>
             rbind (re_compile (string_of_list_byte b)) (λ p, inr (Some (bytes_pattern p)))
         | PD_Pattern d => inr (Some d)
         | PD_Other true =>
             inl (TypeError "Argument for 'phase_delim' should be a string or a regular expression")
         end) (λ delim,
  inr {| _delim := delim;
         _methods := <["out" := method_for "out" stdout]>
                       (<["err" := method_for "err" stderr]> ∅) |}).
End OutputCollector.

(** [OutputCollector._redirect] *)
Fixpoint _redirect (self : OutputCollector) (stream : list bytes)
    (dest : handle) (progress : option handle) : Worker :=
  match stream with
  | [] => {| events := []; unread := []; closed := true; raised := None |}
  | line :: rest =>
      match decode_utf8 line with
      | None => worker_raise UnicodeDecodeError [] rest
      | Some s =>
          match _delim self with
          | None => worker_raise (AttributeError "_delim") [dest_write dest s] rest
          | Some (bytes_pattern _) =>
              worker_raise (TypeError "cannot use a bytes pattern on a string-like object")
                [dest_write dest s] rest
          | Some (str_pattern delim) =>
              if search delim s then
                match progress with
                | None => worker_raise (AttributeError "write") [dest_write dest s] rest
                | Some p =>
                    worker_then [dest_write dest s; progress_write p "."; progress_flush p]
                      (_redirect self rest dest progress)
                end
              else worker_then [dest_write dest s] (_redirect self rest dest progress)
          end
      end
  end.

(** [OutputCollector._vanish] *)
Definition _vanish (stream : list bytes) : Worker :=
  {| events := []; unread := []; closed := true; raised := None |}.

(** The subprocess as [collect] sees it: the lines of its two streams. *)
Record Popen : Type := mkPopen { stdout : list bytes; stderr : list bytes }.

Definition run_worker (self : OutputCollector) (m : Method) (stream : list bytes) : Worker :=
  match m with
  | M_redirect dest progress => _redirect self stream dest progress
  | M_vanish => _vanish stream
  end.

(** [OutputCollector.collect]: one worker thread per stream, ["out"]
    first. Each worker's outcome is kept apart; how the two threads'
    calls interleave is not part of the model. A worker that raises ends
    its thread only, [collect] itself returns. *)
Definition collect (self : OutputCollector) (proc : Popen) : Result (Worker * Worker) :=
  match _methods self !! "out", _methods self !! "err" with
  | Some m_out, Some m_err =>
      inr (run_worker self m_out (stdout proc), run_worker self m_err (stderr proc))
  | _, _ => inl (KeyError "_methods")
  end.

(** Number of marker characters a worker wrote. *)
Definition is_marker (e : event) : bool :=
  match e with
  | progress_write _ _ => true
  | _ => false
  end.

Definition markers (w : Worker) : nat :=
  List.length (List.filter is_marker (events w)).

(** A line matches a delimiter when its text does. *)
Definition line_matches (delim : Pattern) (line : bytes) : bool :=
  match decode_utf8 line with
  | Some s => search delim s
  | None => false
  end.

(** Number of lines of a stream that match a delimiter. *)
Definition matching (delim : Pattern) (stream : list bytes) : nat :=
  List.length (List.filter (line_matches delim) stream).

Global Instance handle_eq_dec : EqDecision handle.
Proof. solve_decision. Defined.

(** Every marker is the single character ["."] written to [h], and the
    call that follows it flushes [h]. *)
Fixpoint marks_flushed_on (h : handle) (evs : list event) : bool :=
  match evs with
  | [] => true
  | progress_write p s :: rest =>
      match rest with
      | progress_flush q :: rest' =>
          bool_decide (p = h) && bool_decide (q = h) && String.eqb s "."
          && marks_flushed_on h rest'
      | _ => false
      end
  | _ :: rest => marks_flushed_on h rest
  end.

(** A stream whose lines reach a destination other than the process's
    own standard output or error. *)
Definition to_file (arg : StreamArg) : bool :=
  match arg with
  | ArgDest _ => true
  | _ => false
  end.

(** ** The provenance store (idaes.dmf) and the step functions *)

(** The store as the module uses it: [find], [find_one], [find_related],
    [add], [update], and [resource.create_relation]. A resource is visible
    to [find] as soon as it is added; a relation created with
    [create_relation] is pending on its resources until [update] pushes
    it into the store, where [find_related] reads it. *)
Record DMF : Type := mkDMF {
  workspace_path : Path;
  resources : list Resource;
  relations : list Relation
}.

(** What a step function returns: [None], or a mapping from an output
    key to a directory and its files, in the order of the mapping. The
    directory and the files are kept as the strings [str] gives. *)
Definition Outputs : Type := option (list (string * (string * list string))).

(** Arguments passed through [run] to the step function. *)
Inductive PyObj : Type :=
| ObjValue (v : Value)
| ObjCollector (c : OutputCollector).

(** A step function: its [__module__], its [__name__], and what calling
    it with ([inputs],) [*args], [**kwargs] returns or raises. The first
    argument is [None] when [run] does not pass [inputs]. *)
Record StepFunction : Type := mkStepFunction {
  __module__ : string;
  __name__ : string;
  call : option (list Dataset) → list PyObj → gmap string PyObj → Result Outputs
}.

(** One invocation of a step function by [run]. *)
Record Call : Type := mkCall {
  call_step : string;
  call_inputs : option (list Dataset);
  call_args : list PyObj;
  call_kwargs : gmap string PyObj
}.

(** The state [ManagedWorkflow] works on: the store, the relations
    created and not yet pushed, the supply of resource identifiers, and
    the step functions invoked so far. *)
Record World : Type := mkWorld {
  dmf : DMF;
  pending : list Relation;
  next_id : rid;
  calls : list Call
}.

(** State and exception monad over [World]. *)
Definition M (A : Type) : Type := World → Result A * World.

Definition ret {A} (a : A) : M A := λ w, (inr a, w).

Definition raise {A} (e : exn) : M A := λ w, (inl e, w).

Definition bind {A B} (m : M A) (k : A → M B) : M B :=
  λ w, match m w with
       | (inl e, w') => (inl e, w')
       | (inr a, w') => k a w'
       end.

Definition lift {A} (r : Result A) : M A := λ w, (r, w).

Notation "'do' x <- m ; k" := (bind m (λ x, k))
  (at level 10, x pattern, m at level 100, k at level 200).
Notation "'do_' m ; k" := (bind m (λ _, k))
  (at level 10, m at level 100, k at level 200).

Fixpoint for_each {A} (l : list A) (body : A → M unit) : M unit :=
  match l with
  | [] => ret ()
  | x :: xs => do_ body x; for_each xs body
  end.

Definition set_dmf (f : DMF → DMF) : M unit :=
  λ w, (inr (), {| dmf := f (dmf w); pending := pending w;
                   next_id := next_id w; calls := calls w |}).

(** The resources of the store with a given name, oldest first. *)
Definition named (name : string) (d : DMF) : list Resource :=
  List.filter (λ r, String.eqb (r_name r) name) (resources d).

(** [dmf.find(name=...)] *)
Definition find (name : string) : M (list Resource) :=
  λ w, (inr (named name (dmf w)), w).

(** [dmf.find_one(name=...)] *)
Definition find_one (name : string) : M (option Resource) :=
  do rs <- find name; ret (head rs).

(** [dmf.find_related(r, outgoing=True, maxdepth=1)]: depth, relation
    and identifier ([meta[Resource.ID_FIELD]]) of the resource reached. *)
Definition related_outgoing (d : DMF) (r : Resource) : list (nat * Relation * rid) :=
  (λ rel, (1, rel, object rel)) <$>
    List.filter (λ rel, N.eqb (subject rel) (id_ r)) (relations d).

Definition find_related_outgoing (r : Resource) : M (list (nat * Relation * rid)) :=
  λ w, (inr (related_outgoing (dmf w) r), w).

(** [dmf.add(r)] *)
Definition dmf_add (r : Resource) : M unit :=
  set_dmf (λ d, {| workspace_path := workspace_path d;
                   resources := resources d ++ [r];
                   relations := relations d |}).

(** [dmf.update()] *)
Definition dmf_update : M unit :=
  λ w, (inr (), {| dmf := {| workspace_path := workspace_path (dmf w);
                            resources := resources (dmf w);
                            relations := relations (dmf w) ++ pending w |};
                   pending := [];
                   next_id := next_id w;
                   calls := calls w |}).

(** [resource.Resource({...})] followed by [set_field("name", ...)] *)
Definition new_resource (name desc : string) (files : list Datafile) (dir : string)
  : M Resource :=
  λ w, (inr {| id_ := next_id w; r_name := name; r_desc := desc;
               datafiles := files; datafiles_dir := dir |},
        {| dmf := dmf w; pending := pending w;
           next_id := N.succ (next_id w); calls := calls w |}).

(** [resource.create_relation(subj, pred, obj)]; both ends must be
    resources. *)
Definition create_relation (subj : Resource) (pred : Predicates) (obj : Value) : M unit :=
  match obj with
  | VResource o =>
      λ w, (inr (), {| dmf := dmf w;
                       pending := pending w ++
                         [{| subject := id_ subj; predicate := pred; object := id_ o |}];
                       next_id := next_id w; calls := calls w |})
  | _ => raise (AttributeError "v")
  end.

(** Calling the step function, which [run] does at most once. *)
Definition invoke (method : StepFunction) (step_name : string)
    (inputs : option (list Dataset)) (args : list PyObj) (kwargs : gmap string PyObj)
  : M Outputs :=
  λ w, (call method inputs args kwargs,
        {| dmf := dmf w; pending := pending w; next_id := next_id w;
           calls := calls w ++ [{| call_step := step_name; call_inputs := inputs;
                                   call_args := args; call_kwargs := kwargs |}] |}).

(** ** class ManagedWorkflow *)

(** The argument [inputs] of [run]: [None], one dataset (an object
    without [__iter__]), or a sequence of datasets. *)
Inductive Inputs : Type :=
| inputs_None
| inputs_one (ds : Dataset)
| inputs_seq (l : list Dataset).

Record ManagedWorkflow : Type := mkManagedWorkflow {
  _name : string;
  _workspace_name : string
}.

(** Iterating a metadata value: a list gives its items, a string its
    characters, anything else is not iterable. *)
Definition iter_value (v : Value) : Result (list string) :=
  match v with
  | VList l => inr l
  | VStr s => inr ((λ c, String c "") <$> list_ascii_of_string s)
  | _ => inl (TypeError "object is not iterable")
  end.

(** [Path(v)] *)
Definition Path_of_value (v : Value) : Result Path :=
  match v with
  | VStr s => inr (Path_of_string s)
  | VPath p => inr p
  | _ => inl (TypeError "expected str, bytes or os.PathLike object")
  end.

(** The set of [uses] targets read off [find_related]. *)
Fixpoint collect_uses (related : list (nat * Relation * rid)) (ids : gset (option rid))
  : gset (option rid) :=
  match related with
  | [] => ids
  | (_d, rel, meta) :: rest =>
      collect_uses rest
        (if decide (predicate rel = uses) then ids ∪ {[ Some meta ]} else ids)
  end.

(** The condition under which [run] sets [existing = True]. *)
Definition same_inputs (input_ids : option (gset (option rid)))
    (proc_step_input_ids : gset (option rid)) : bool :=
  match input_ids with
  | None => Nat.eqb (size proc_step_input_ids) 0
  | Some ids => bool_decide (proc_step_input_ids = ids)
  end.

(** The loop over [find(name=step_name)], left at the first match. *)
Fixpoint find_existing (steps : list Resource) (input_ids : option (gset (option rid)))
  : M bool :=
  match steps with
  | [] => ret false
  | proc_step :: rest =>
      do related <- find_related_outgoing proc_step;
      if same_inputs input_ids (collect_uses related ∅) then ret true
      else find_existing rest input_ids
  end.

(** The check of [run]: is the step with these inputs in the DMF? *)
Definition requested_ids (inputs : option (list Dataset))
  : Result (option (gset (option rid))) :=
  match inputs with
  | None => inr None
  | Some l => rbind (rmapM resource_id l) (λ ids, inr (Some (list_to_set ids)))
  end.

Definition check_existing (step_name : string) (inputs : option (list Dataset)) : M bool :=
  do input_ids <- lift (requested_ids inputs);
  do steps <- find step_name;
  find_existing steps input_ids.

Definition datafiles_of (files : list string) : list Datafile :=
  (λ filename, {| df_path := filename;
                  df_desc := DatasetType_RTS_GMLC +:+ " file " +:+ filename |}) <$> files.

(** The loop of [run] over [outputs.items()]. *)
Definition add_outputs (step_name : string) (this_step : Resource)
    (items : list (string * (string * list string))) : M unit :=
  for_each items (λ '(key, (dir_path, files)),
    do r <- new_resource key ("Output files for processing step " +:+ step_name)
              (datafiles_of files) dir_path;
    do_ dmf_add r;
    create_relation r derived (VResource this_step)).

(** [f"{method.__module__}.{method.__name__}"] *)
Definition step_name_of (method : StepFunction) : string :=
  __module__ method +:+ "." +:+ __name__ method.

(** Inputs as a list, unless [None]. *)
Definition normalize_inputs (inputs : Inputs) : option (list Dataset) :=
  match inputs with
  | inputs_None => None
  | inputs_one ds => Some [ds]
  | inputs_seq l => Some l
  end.

(** The second half of [run]: the step is executed and recorded. *)
Definition execute_step (method : StepFunction) (inputs : option (list Dataset))
    (args : list PyObj) (kwargs : gmap string PyObj) : M Outputs :=
  let step_name := step_name_of method in
  do outputs <- invoke method step_name inputs args kwargs;
  do this_step <- new_resource step_name ("Processing step " +:+ step_name) [] "";
  do_ dmf_add this_step;
  do_ for_each (default [] inputs)
        (λ input_, create_relation this_step uses (resource input_));
  do_ add_outputs step_name this_step (default [] outputs);
  do_ dmf_update;
  ret None.

(** [ManagedWorkflow.run] *)
Definition run (self : ManagedWorkflow) (method : StepFunction) (inputs : Inputs)
    (skip_check : bool) (args : list PyObj) (kwargs : gmap string PyObj) : M Outputs :=
  let step_name := step_name_of method in
  let inputs := normalize_inputs inputs in
  do existing <- (if skip_check then ret false else check_existing step_name inputs);
  if (existing : bool) then ret None
  else execute_step method inputs args kwargs.

Section ManagedWorkflow.
Variable resolve : Path → Path.
Variable rts_gmlc_download : option Value → Result Value.
Variable os_listdir : Value → Result (list string).
(** [rts_gmlc.runner], the step function [run_script] runs. *)
Variable rts_gmlc_runner : StepFunction.

(** [ManagedWorkflow._download_path] *)
Definition _download_path : M Path :=
  λ w, (inr (path_join (workspace_path (dmf w)) "downloads"), w).

(** [ManagedWorkflow._add_to_dmf]; the dataset is returned as the call
    leaves it. *)
Definition _add_to_dmf (ds : Dataset) : M Dataset :=
  do datafile_list <- lift (match meta ds !! "files" with
                            | Some v => rbind (iter_value v) (λ l, inr (datafiles_of l))
                            | None => inr []
                            end);
  do datafiles_dir <- lift (match meta ds !! "directory" with
                            | Some v => rbind (Path_of_value v)
                                          (λ p, inr (path_str (resolve p)))
                            | None => inr ""
                            end);
  do r <- new_resource (name ds) "" datafile_list datafiles_dir;
  do_ dmf_add r;
  match resource_setter (VResource r) ds with
  | (inl e, _) => raise e
  | (inr _, ds) => ret ds
  end.

(** [ManagedWorkflow.get_dataset] *)
Definition get_dataset (self : ManagedWorkflow) (type_ : string) (kwargs : kwargs_t)
  : M Dataset :=
  do existing <- find_one type_;
  match existing with
  | Some r => lift (from_resource r)
  | None =>
      do create <- lift (DatasetFactory_init resolve rts_gmlc_download os_listdir type_);
      do target_path <- _download_path;
      if decide (is_Some (kwargs !! "target_path")) then
        raise (TypeError "got multiple values for keyword argument 'target_path'")
      else
        do ds <- lift (create (<["target_path" := VPath target_path]> kwargs));
        _add_to_dmf ds
  end.

(** [ManagedWorkflow.run_script] *)
Definition run_script (self : ManagedWorkflow) (filename : string)
    (collector : option OutputCollector) : M Outputs :=
  do dl <- _download_path;
  let path := path_join dl filename in
  do create <- lift (DatasetFactory_init resolve rts_gmlc_download os_listdir "script");
  do ds <- lift (create {[ "path" := VPath path ]});
  do resources <- find (name ds);
  do (ds, skip_run_check) <-
    match resources with
    | [] => do ds <- _add_to_dmf ds; ret (ds, true)
    | [r] =>
        match resource_setter (VResource r) ds with
        | (inl e, _) => raise e
        | (inr _, ds) => ret (ds, false)
        end
    | _ =>
        raise (ValueError ("Got " +:+ pretty (List.length resources)
                 +:+ " resources for script configuration, expected at most one: "
                 +:+ path_str path))
    end;
  run self rts_gmlc_runner (inputs_seq [ds]) skip_run_check []
    {[ "collector" := match collector with
                      | Some c => ObjCollector c
                      | None => ObjValue VNone
                      end ]}.
End ManagedWorkflow.

(** ** Notions used to state the properties of [run] *)

(** The identifiers a step resource reaches by its [uses] relations, as
    the check of [run] computes them. *)
Definition uses_ids (d : DMF) (step : Resource) : gset (option rid) :=
  collect_uses (related_outgoing d step) ∅.

(** Identifiers are fresh: no relation, pushed or pending, starts at an
    identifier the supply has not handed out yet. *)
Definition store_wf (w : World) : Prop :=
  ∀ rel, rel ∈ relations (dmf w) ++ pending w → (subject rel < next_id w)%N.

(** The specification's condition for a step without inputs: some
    resource with the step's name has no outgoing [uses] relation. *)
Definition recorded_without_inputs (d : DMF) (step_name : string) : Prop :=
  ∃ step, step ∈ resources d ∧ r_name step = step_name
          ∧ ∀ rel, rel ∈ relations d → subject rel = id_ step → predicate rel ≠ uses.

(** The resources [run] adds for the outputs of a step. *)
Definition output_resources (step_name : string) (first_id : rid)
    (items : list (string * (string * list string))) : list Resource :=
  imap (λ i '(key, (dir_path, files)),
          {| id_ := (first_id + N.of_nat i)%N; r_name := key;
             r_desc := "Output files for processing step " +:+ step_name;
             datafiles := datafiles_of files; datafiles_dir := dir_path |}) items.

(** The resource [run] adds for the step itself. *)
Definition step_resource (step_name : string) (i : rid) : Resource :=
  {| id_ := i; r_name := step_name; r_desc := "Processing step " +:+ step_name;
     datafiles := []; datafiles_dir := "" |}.

(** The state [run] leaves when it has executed a step on inputs whose
    attached resources are [rs] and the step function returned
    [outputs]: one invocation, the step resource, the output resources,
    and all relations pushed. *)
Definition ran_world (w : World) (step_name : string) (inputs : option (list Dataset))
    (rs : list Resource) (args : list PyObj) (kwargs : gmap string PyObj)
    (outputs : Outputs) : World :=
  let this_step := step_resource step_name (next_id w) in
  let outs := output_resources step_name (N.succ (next_id w)) (default [] outputs) in
  {| dmf := {| workspace_path := workspace_path (dmf w);
               resources := (resources (dmf w) ++ [this_step]) ++ outs;
               relations := relations (dmf w) ++
                 ((pending w ++
                   ((λ r, {| subject := id_ this_step; predicate := uses; object := id_ r |})
                      <$> rs)) ++
                  ((λ r, {| subject := id_ r; predicate := derived; object := id_ this_step |})
                     <$> outs)) |};
     pending := [];
     next_id := (N.succ (next_id w) + N.of_nat (List.length (default [] outputs)))%N;
     calls := calls w ++ [{| call_step := step_name; call_inputs := inputs;
                             call_args := args; call_kwargs := kwargs |}] |}.

(** The datasets a caller hands to [run], read off the argument itself:
    none for [None], the dataset for a single one, the items of a
    sequence. *)
Definition input_datasets (inputs : Inputs) : list Dataset :=
  match inputs with
  | inputs_None => []
  | inputs_one ds => [ds]
  | inputs_seq l => l
  end.

(** The resource attached to a dataset. *)
Definition attached (ds : Dataset) (r : Resource) : Prop :=
  _meta ds !! "resource" = Some (VResource r).

(** The dataset [run_script] builds for a script path. *)
Definition script_dataset (resolve : Path → Path) (path : Path) : Dataset :=
  add_meta "files" (VList [path_name path])
    (add_meta "directory" (VPath (resolve (path_parent path)))
       (Dataset_init ("script:" +:+ path_name path))).

(** The keyword arguments [run_script] passes on to the runner. *)
Definition collector_kwargs (collector : option OutputCollector) : gmap string PyObj :=
  {[ "collector" := match collector with
                    | Some c => ObjCollector c
                    | None => ObjValue VNone
                    end ]}.

(** ** A concrete environment

    Used to evaluate the definitions on explicit inputs: a file system
    without symbolic links in which every path below is already absolute,
    a downloader that fails, and patterns that search for a substring. *)

Definition resolve_id (p : Path) : Path := p.

Definition download_unavailable (target : option Value) : Result Value :=
  inl (ExternalError "rts_gmlc.download").

Definition listdir_unavailable (dir : Value) : Result (list string) :=
  inl (ExternalError "os.listdir").

Fixpoint has_substring (pat s : string) : bool :=
  String.prefix pat s ||
  match s with
  | "" => false
  | String _ s' => has_substring pat s'
  end.

Definition re_literal (pat : string) : Result Pattern :=
  inr {| search := has_substring pat |}.

(** The bytes of a line of text, with its newline. *)
Definition line_of (s : string) : bytes := (list_byte_of_string s ++ [x0a])%list.

Definition sample_path : Path := Path_of_string "/ws/downloads/run.py".

Definition sample_resource (i : rid) (n : string) : Resource :=
  {| id_ := i; r_name := n; r_desc := ""; datafiles := []; datafiles_dir := "" |}.

(** An empty workspace at [/ws]. *)
Definition empty_world : World :=
  {| dmf := {| workspace_path := Path_of_string "/ws"; resources := []; relations := [] |};
     pending := []; next_id := 0%N; calls := [] |}.

Definition sample_workflow : ManagedWorkflow :=
  {| _name := "wf"; _workspace_name := "ws" |}.

(** A step function that reports one output directory with one file. *)
Definition sample_step : StepFunction :=
  {| __module__ := "steps"; __name__ := "convert";
     call := λ _ _ _, inr (Some [("converted", ("/ws/out", ["a.csv"]))]) |}.

(** A stand-in for [rts_gmlc.runner] that reports no output. *)
Definition sample_runner : StepFunction :=
  {| __module__ := "dispatches.workflow.rts_gmlc"; __name__ := "runner";
     call := λ _ _ _, inr None |}.

(** A dataset with the resource [7] attached. *)
Definition sample_input : Dataset :=
  (resource_setter (VResource (sample_resource 7%N "data")) (Dataset_init "data")).2.


(** A file name without directory part: not empty, not ["."], no ["/"]. *)
Fixpoint no_slash (s : string) : bool :=
  match s with
  | "" => true
  | String c s' => negb (Ascii.eqb c "/"%char) && no_slash s'
  end.

Definition plain_filename (s : string) : bool :=
  no_slash s && keep_component s.

(** A downloader that unpacks two files into the target directory. *)
Definition download_into_target (target : option Value) : Result Value :=
  match target with
  | Some (VPath p) => inr (VStr (path_str p +:+ "/RTS-GMLC"))
  | _ => inl (ExternalError "rts_gmlc.download")
  end.

Definition listdir_two_files (dir : Value) : Result (list string) :=
  inr ["bus.csv"; "gen.csv"].

(** A second dataset, with the resource [8] attached. *)
Definition sample_input2 : Dataset :=
  (resource_setter (VResource (sample_resource 8%N "more")) (Dataset_init "more")).2.

(** The store after [get_dataset("null")] in an empty workspace. *)
Definition null_world : World :=
  {| dmf := {| workspace_path := Path_of_string "/ws";
               resources := [sample_resource 0%N "null"]; relations := [] |};
     pending := []; next_id := 1%N; calls := [] |}.

(** A dataset as a factory leaves it: files and directory, no resource. *)
Definition sample_unregistered : Dataset :=
  add_meta "files" (VList ["a.csv"; "b.csv"])
    (add_meta "directory" (VPath (Path_of_string "/ws/data")) (Dataset_init "data")).

(** A step function that always raises. *)
Definition failing_step : StepFunction :=
  {| __module__ := "steps"; __name__ := "broken";
     call := λ _ _ _, inl (ExternalError "boom") |}.

(** * Properties *)

(** ** Dataset *)

(** C3. Assigning [Dataset.resource] twice: the second assignment raises
    the [ValueError] of the setter (the specification's
    InvalidStateError) and changes nothing, and the getter still returns
    the value that was set first: the first assigned value when the
    dataset had none, the value it already had otherwise. *)
Theorem resource_setter_twice (ds : Dataset) (v1 v2 : Value) :
  let '(r1, ds1) := resource_setter v1 ds in
  let '(r2, ds2) := resource_setter v2 ds1 in
  r2 = inl (ValueError resource_set_twice_msg)
  ∧ ds2 = ds1
  ∧ resource ds2 = match _meta ds !! "resource" with
                   | None => v1
                   | Some v0 => v0
                   end
  ∧ (r1 = inr () ↔ _meta ds !! "resource" = None).
Proof.
  unfold resource_setter, resource.
  destruct (_meta ds !! "resource") as [v0|] eqn:E; cbn.
  - rewrite E; cbn. rewrite E. repeat split; try done.
  - rewrite lookup_insert_eq; cbn. rewrite lookup_insert_eq. repeat split; done.
Qed.

(** C4, as the claim states it, fails: [add_meta] with key ["resource"]
    replaces a resource that was set, and raises nothing. *)
Lemma add_meta_overwrites_resource :
  let r1 := VResource (sample_resource 1%N "a") in
  let r2 := VResource (sample_resource 2%N "b") in
  let ds1 := (resource_setter r1 (Dataset_init "d")).2 in
  resource ds1 = r1
  ∧ resource (add_meta "resource" r2 ds1) = r2
  ∧ r2 ≠ r1.
Proof.
  cbn. unfold resource, add_meta; cbn.
  rewrite !lookup_insert_eq. repeat split; discriminate.
Qed.

(** C4, amended. Once the ["resource"] entry is set, every assignment
    through the [resource] setter raises and leaves the dataset as it
    was, and [add_meta] with any other key leaves the entry alone;
    [add_meta] with key ["resource"] is an unguarded insert-or-overwrite
    and replaces the entry. *)
Theorem resource_entry_guarded_by_setter (ds : Dataset) (v0 v : Value) (key : string) :
  _meta ds !! "resource" = Some v0 →
  resource_setter v ds = (inl (ValueError resource_set_twice_msg), ds)
  ∧ (key ≠ "resource" → _meta (add_meta key v ds) !! "resource" = Some v0)
  ∧ _meta (add_meta "resource" v ds) !! "resource" = Some v.
Proof.
  intros E. unfold resource_setter, add_meta; cbn. rewrite E.
  repeat split.
  - intros Hk. by rewrite lookup_insert_ne.
  - by rewrite lookup_insert_eq.
Qed.

Lemma resource_entry_guarded_by_setter_witness :
  let ds := (resource_setter (VStr "r") (Dataset_init "d")).2 in
  resource_setter VNone ds = (inl (ValueError resource_set_twice_msg), ds)
  ∧ ("files" ≠ "resource" → _meta (add_meta "files" VNone ds) !! "resource" = Some (VStr "r"))
  ∧ _meta (add_meta "resource" VNone ds) !! "resource" = Some VNone.
Proof.
  apply (resource_entry_guarded_by_setter _ (VStr "r") VNone "files").
  cbn. apply lookup_insert_eq.
Defined.

(** ** DatasetFactory *)

(** C5, as the claim states it, fails: the dataset of the script
    [/ws/downloads/run.py] is named ["script:run.py"], not ["run.py"]. *)
Lemma script_dataset_name_is_prefixed :
  path_name sample_path = "run.py"
  ∧ ∃ fn ds,
      _get_factory_function resolve_id download_unavailable listdir_unavailable "script"
        = inr fn
      ∧ fn {[ "path" := VPath sample_path ]} = inr ds
      ∧ name ds = "script:run.py"
      ∧ name ds ≠ path_name sample_path.
Proof.
  split; [reflexivity|].
  eexists _, _. split; [reflexivity|].
  unfold script_fn. rewrite lookup_singleton_eq.
  split; [reflexivity|]. split; [reflexivity|]. cbn. discriminate.
Qed.

Section DatasetFactoryProperties.
Variable resolve : Path → Path.
Variable rts_gmlc_download : option Value → Result Value.
Variable os_listdir : Value → Result (list string).

(** C5, amended. For every path [p], the creation function of type
    ["script"] builds a dataset named ["script:"] followed by the last
    component of [p], whose ["directory"] is the resolved parent of [p]
    and whose ["files"] is the one-element list of that last component;
    other keyword arguments are ignored. *)
Theorem script_factory_dataset (p : Path) (kwargs : kwargs_t) :
  ∃ fn ds,
    _get_factory_function resolve rts_gmlc_download os_listdir "script" = inr fn
    ∧ fn (<["path" := VPath p]> kwargs) = inr ds
    ∧ name ds = "script:" +:+ path_name p
    ∧ meta ds !! "directory" = Some (VPath (resolve (path_parent p)))
    ∧ meta ds !! "files" = Some (VList [path_name p])
    ∧ resource ds = VNone.
Proof.
  eexists _, _. split; [reflexivity|].
  unfold script_fn. rewrite lookup_insert_eq.
  split; [reflexivity|]. split; [reflexivity|].
  unfold meta, resource, add_meta, Dataset_init; cbn.
  repeat split; reflexivity.
Qed.
End DatasetFactoryProperties.

(** ** OutputCollector *)

(** A worker that redirects with a delimiter and a progress file reads
    every line, provided each line is valid UTF-8. *)
Lemma redirect_with_progress (self : OutputCollector) (delim : Pattern)
    (dest p : handle) (stream : list bytes) :
  _delim self = Some delim →
  Forall (λ line, is_Some (decode_utf8 line)) stream →
  let w := _redirect self stream dest (Some p) in
  raised w = None ∧ closed w = true ∧ unread w = []
  ∧ markers w = matching delim stream
  ∧ marks_flushed_on p (events w) = true.
Proof.
  intros Hd Hall. induction Hall as [|line rest [s Hs] _ IH]; cbn.
  - done.
  - rewrite Hs, Hd. unfold matching, line_matches in *; cbn. rewrite Hs.
    destruct IH as (IH1 & IH2 & IH3 & IH4 & IH5).
    destruct (search delim s); cbn.
    + rewrite !bool_decide_true by done. cbn.
      repeat split; try done. unfold markers in IH4. by rewrite IH4.
    + repeat split; try done.
Qed.

(** C8, as the claim states it, fails. With the delimiter [PHASE] and one
    matching line on stdout ([k = 1]): when stdout is discarded no marker
    is written; when stdout is the process's own standard output the
    worker is ended by an [AttributeError] at the marker, and none is
    written either; when the delimiter was given as bytes, the worker of
    a stream sent to a file is ended by a [TypeError] at the search; and
    when a line that is not valid UTF-8 comes first, the worker is ended
    before it reaches the matching line. *)
Lemma markers_not_one_per_matching_line :
  let proc := {| stdout := [line_of "PHASE 1"]; stderr := [] |} in
  let delim := {| search := has_substring "PHASE" |} in
  matching delim (stdout proc) + matching delim (stderr proc) = 1
  ∧ (∃ self w_out w_err,
       OutputCollector_init re_literal (PD_Str "PHASE") (ArgDest "err.log") ArgFalse = inr self
       ∧ collect self proc = inr (w_out, w_err)
       ∧ markers w_out + markers w_err = 0)
  ∧ (∃ self w_out w_err,
       OutputCollector_init re_literal (PD_Str "PHASE") ArgTrue ArgTrue = inr self
       ∧ collect self proc = inr (w_out, w_err)
       ∧ raised w_out = Some (AttributeError "write")
       ∧ markers w_out + markers w_err = 0)
  ∧ (∃ self w_out w_err,
       OutputCollector_init re_literal (PD_Bytes (list_byte_of_string "PHASE"))
         ArgFalse (ArgDest "out.log") = inr self
       ∧ collect self proc = inr (w_out, w_err)
       ∧ raised w_out
         = Some (TypeError "cannot use a bytes pattern on a string-like object")
       ∧ markers w_out + markers w_err = 0)
  ∧ (let proc2 := {| stdout := [[xff; x0a]; line_of "PHASE 1"]; stderr := [] |} in
     matching delim (stdout proc2) + matching delim (stderr proc2) = 1
     ∧ ∃ self w_out w_err,
         OutputCollector_init re_literal (PD_Str "PHASE") ArgFalse (ArgDest "out.log")
         = inr self
         ∧ collect self proc2 = inr (w_out, w_err)
         ∧ raised w_out = Some UnicodeDecodeError
         ∧ markers w_out + markers w_err = 0).
Proof.
  split; [reflexivity|]. split; [|split; [|split]].
  - eexists _, _, _. split; [reflexivity|]. split; reflexivity.
  - eexists _, _, _. split; [reflexivity|]. split; [reflexivity|]. split; reflexivity.
  - eexists _, _, _. split; [reflexivity|]. split; [reflexivity|]. split; reflexivity.
  - split; [reflexivity|].
    eexists _, _, _. split; [reflexivity|]. split; [reflexivity|]. split; reflexivity.
Qed.

(** C7, on the input where it fails. A collector constructed with the
    default arguments, handed a process that wrote two lines to its
    standard output: the stdout worker writes the first line, is ended
    by the [AttributeError] of reading [self._delim], leaves the second
    line unread and does not close the stream. *)
Lemma default_collector_leaves_stream_undrained :
  ∃ self w_out w_err,
    OutputCollector_init re_literal PD_None ArgTrue ArgTrue = inr self
    ∧ collect self {| stdout := [line_of "a"; line_of "b"]; stderr := [] |}
      = inr (w_out, w_err)
    ∧ events w_out = [dest_write sys_stdout (string_of_list_byte (line_of "a"))]
    ∧ raised w_out = Some (AttributeError "_delim")
    ∧ unread w_out = [line_of "b"]
    ∧ closed w_out = false.
Proof. eexists _, _, _. repeat split; reflexivity. Qed.

Section OutputCollectorProperties.
Variable re_compile : string → Result Pattern.

Lemma init_methods (phase_delim : PhaseDelim) (stderr stdout : StreamArg)
    (self : OutputCollector) :
  OutputCollector_init re_compile phase_delim stderr stdout = inr self →
  _methods self !! "out" = Some (method_for "out" stdout)
  ∧ _methods self !! "err" = Some (method_for "err" stderr).
Proof.
  unfold OutputCollector_init, rbind. intros H.
  repeat case_match; simplify_eq; cbn; done.
Qed.

(** C8, amended. For every collector configured with a delimiter over
    text (a string or a compiled text pattern) and every process, each
    stream on its own: a stream sent to a file whose lines are valid
    UTF-8 is read to its end and closed, and the markers its worker
    writes are exactly one per matching line, each a single ["."]
    written to the process's standard output and flushed by the next
    call; a discarded stream is read to its end and closed and its
    worker writes no marker. Nothing is said of a stream sent to the
    process's own standard output or error. *)
Theorem markers_one_per_matching_line_to_file (phase_delim : PhaseDelim)
    (err_arg out_arg : StreamArg) (self : OutputCollector) (delim : Pattern)
    (proc : Popen) :
  OutputCollector_init re_compile phase_delim err_arg out_arg = inr self →
  _delim self = Some delim →
  ∃ w_out w_err,
    collect self proc = inr (w_out, w_err)
    ∧ (to_file out_arg = true →
       Forall (λ line, is_Some (decode_utf8 line)) (stdout proc) →
       raised w_out = None ∧ closed w_out = true ∧ unread w_out = []
       ∧ markers w_out = matching delim (stdout proc)
       ∧ marks_flushed_on sys_stdout (events w_out) = true)
    ∧ (out_arg = ArgFalse →
       raised w_out = None ∧ closed w_out = true ∧ unread w_out = [] ∧ markers w_out = 0)
    ∧ (to_file err_arg = true →
       Forall (λ line, is_Some (decode_utf8 line)) (stderr proc) →
       raised w_err = None ∧ closed w_err = true ∧ unread w_err = []
       ∧ markers w_err = matching delim (stderr proc)
       ∧ marks_flushed_on sys_stdout (events w_err) = true)
    ∧ (err_arg = ArgFalse →
       raised w_err = None ∧ closed w_err = true ∧ unread w_err = [] ∧ markers w_err = 0).
Proof.
  intros Hinit Hd.
  destruct (init_methods _ _ _ _ Hinit) as [Hmo Hme].
  unfold collect. rewrite Hmo, Hme. eexists _, _. split; [reflexivity|].
  assert (∀ name arg stream,
            let w := run_worker self (method_for name arg) stream in
            (to_file arg = true →
             Forall (λ line, is_Some (decode_utf8 line)) stream →
             raised w = None ∧ closed w = true ∧ unread w = []
             ∧ markers w = matching delim stream
             ∧ marks_flushed_on sys_stdout (events w) = true)
            ∧ (arg = ArgFalse →
               raised w = None ∧ closed w = true ∧ unread w = [] ∧ markers w = 0)) as Hw.
  { intros name arg stream. destruct arg as [| |f]; cbn; split; try done.
    intros _ Hall. by apply redirect_with_progress. }
  destruct (Hw "out" out_arg (stdout proc)) as [H1 H2].
  destruct (Hw "err" err_arg (stderr proc)) as [H3 H4].
  split; [exact H1|]. split; [exact H2|]. split; [exact H3|exact H4].
Qed.

(** C10, amended. A collector constructed without a phase delimiter
    never gets its [_delim] attribute, and each of its streams that is
    redirected (to the process's own stream or to a file) has a worker
    that fails on the first line it reads: when the line is valid UTF-8
    it is written to the destination and the worker is then ended by
    the [AttributeError] of reading [self._delim]; when it is not, the
    worker is ended by the [UnicodeDecodeError] of decoding it, before
    anything is written. Either way the remaining lines stay unread and
    the stream is not closed. *)
Theorem redirect_without_delimiter_raises (stderr stdout : StreamArg)
    (self : OutputCollector) (name : string) (arg : StreamArg)
    (line : bytes) (rest : list bytes) :
  OutputCollector_init re_compile PD_None stderr stdout = inr self →
  (name, arg) ∈ [("err", stderr); ("out", stdout)] →
  arg ≠ ArgFalse →
  _delim self = None
  ∧ ∃ dest progress,
      _methods self !! name = Some (M_redirect dest progress)
      ∧ run_worker self (M_redirect dest progress) (line :: rest)
        = match decode_utf8 line with
          | Some s =>
              {| events := [dest_write dest s]; unread := rest; closed := false;
                 raised := Some (AttributeError "_delim") |}
          | None =>
              {| events := []; unread := rest; closed := false;
                 raised := Some UnicodeDecodeError |}
          end.
Proof.
  intros Hinit Hin Harg.
  destruct (init_methods _ _ _ _ Hinit) as [Hmo Hme].
  assert (_delim self = None) as Hd.
  { unfold OutputCollector_init in Hinit; cbn in Hinit. by simplify_eq. }
  split; [done|].
  assert (∃ dest progress, method_for name arg = M_redirect dest progress)
    as (dest & progress & Hm).
  { destruct arg; [ | done | ]; cbn; eauto. }
  exists dest, progress. split.
  - apply elem_of_cons in Hin as [Hin|Hin]; [|apply list_elem_of_singleton in Hin];
      simplify_eq; congruence.
  - cbn. destruct (decode_utf8 line); [by rewrite Hd|done].
Qed.
End OutputCollectorProperties.

Lemma markers_one_per_matching_line_to_file_witness :
  let delim := {| search := has_substring "PHASE" |} in
  let proc := {| stdout := [line_of "PHASE 1"; line_of "x"]; stderr := [line_of "PHASE 2"] |} in
  ∃ w_out w_err,
    collect {| _delim := Some delim;
               _methods := <["out" := M_redirect (opened "out.log") (Some sys_stdout)]>
                             (<["err" := M_redirect sys_stderr None]> ∅) |} proc
    = inr (w_out, w_err)
    ∧ (to_file (ArgDest "out.log") = true →
       Forall (λ line, is_Some (decode_utf8 line)) (stdout proc) →
       raised w_out = None ∧ closed w_out = true ∧ unread w_out = []
       ∧ markers w_out = matching delim (stdout proc)
       ∧ marks_flushed_on sys_stdout (events w_out) = true)
    ∧ (ArgDest "out.log" = ArgFalse →
       raised w_out = None ∧ closed w_out = true ∧ unread w_out = [] ∧ markers w_out = 0)
    ∧ (to_file ArgTrue = true →
       Forall (λ line, is_Some (decode_utf8 line)) (stderr proc) →
       raised w_err = None ∧ closed w_err = true ∧ unread w_err = []
       ∧ markers w_err = matching delim (stderr proc)
       ∧ marks_flushed_on sys_stdout (events w_err) = true)
    ∧ (ArgTrue = ArgFalse →
       raised w_err = None ∧ closed w_err = true ∧ unread w_err = [] ∧ markers w_err = 0).
Proof.
  apply (markers_one_per_matching_line_to_file re_literal (PD_Str "PHASE")
           ArgTrue (ArgDest "out.log") _ {| search := has_substring "PHASE" |}
           {| stdout := [line_of "PHASE 1"; line_of "x"]; stderr := [line_of "PHASE 2"] |}).
  - reflexivity.
  - reflexivity.
Defined.

(** C10, as the claim states it, fails: when the first line is not valid
    UTF-8, the worker of the default collector is ended by
    [UnicodeDecodeError], not by an attribute error, and writes nothing. *)
Lemma undecodable_first_line_is_a_decode_error :
  ∃ self w_out w_err,
    OutputCollector_init re_literal PD_None ArgTrue ArgTrue = inr self
    ∧ collect self {| stdout := [[xff; x0a]; line_of "b"]; stderr := [] |}
      = inr (w_out, w_err)
    ∧ raised w_out = Some UnicodeDecodeError
    ∧ raised w_out ≠ Some (AttributeError "_delim")
    ∧ events w_out = [].
Proof.
  eexists _, _, _. split; [reflexivity|]. split; [reflexivity|].
  split; [reflexivity|]. split; [discriminate|reflexivity].
Qed.

Lemma redirect_without_delimiter_raises_witness :
  let self := {| _delim := None;
                 _methods := <["out" := M_redirect sys_stdout None]>
                               (<["err" := M_redirect sys_stderr None]> ∅) |} in
  _delim self = None
  ∧ ∃ dest progress,
      _methods self !! "out" = Some (M_redirect dest progress)
      ∧ run_worker self (M_redirect dest progress) [line_of "a"; line_of "b"]
        = {| events := [dest_write dest (string_of_list_byte (line_of "a"))];
             unread := [line_of "b"]; closed := false;
             raised := Some (AttributeError "_delim") |}.
Proof.
  apply (redirect_without_delimiter_raises re_literal ArgTrue ArgTrue _ "out" ArgTrue
           (line_of "a") [line_of "b"]).
  - reflexivity.
  - apply list_elem_of_further, list_elem_of_here.
  - discriminate.
Defined.

(** ** ManagedWorkflow *)

Lemma collect_uses_elem (related : list (nat * Relation * rid))
    (acc : gset (option rid)) (x : option rid) :
  x ∈ collect_uses related acc ↔
  x ∈ acc ∨ ∃ d rel m, (d, rel, m) ∈ related ∧ predicate rel = uses ∧ x = Some m.
Proof.
  revert acc. induction related as [|[[d rel] m] rest IH]; intros acc; cbn.
  - split; [auto|]. intros [|(? & ? & ? & H & _)]; [done|]. by apply elem_of_nil in H.
  - rewrite IH. split.
    + intros [Hacc|(d' & rel' & m' & Hin & Hp & ->)].
      * case_decide as Hu.
        -- apply elem_of_union in Hacc as [?|Hx]; [by left|].
           apply elem_of_singleton in Hx as ->. right.
           exists d, rel, m. split; [apply list_elem_of_here|done].
        -- by left.
      * right. exists d', rel', m'. split; [by apply list_elem_of_further|done].
    + intros [Hacc|(d' & rel' & m' & Hin & Hp & ->)].
      * left. case_decide; [apply elem_of_union; by left|done].
      * apply elem_of_cons in Hin as [Heq|Hin].
        -- simplify_eq. left. rewrite decide_True by done.
           apply elem_of_union; right. by apply elem_of_singleton.
        -- right. by exists d', rel', m'.
Qed.

Lemma uses_ids_elem (d : DMF) (step : Resource) (x : option rid) :
  x ∈ uses_ids d step ↔
  ∃ rel, rel ∈ relations d ∧ subject rel = id_ step ∧ predicate rel = uses
         ∧ x = Some (object rel).
Proof.
  unfold uses_ids, related_outgoing. rewrite collect_uses_elem. split.
  - intros [H|(dp & rel & m & Hin & Hp & ->)]; [by apply not_elem_of_empty in H|].
    apply list_elem_of_fmap in Hin as (rel' & Heq & Hin). simplify_eq.
    apply list_elem_of_In, List.filter_In in Hin as [Hin Hs].
    exists rel'. repeat split; try done.
    + by apply list_elem_of_In.
    + by apply N.eqb_eq.
  - intros (rel & Hin & Hs & Hp & ->). right. exists 1, rel, (object rel).
    repeat split; try done. apply list_elem_of_fmap. exists rel. split; [done|].
    apply list_elem_of_In, List.filter_In. split; [by apply list_elem_of_In|].
    by apply N.eqb_eq.
Qed.

Lemma find_existing_spec (steps : list Resource)
    (input_ids : option (gset (option rid))) (w : World) :
  find_existing steps input_ids w
  = (inr (existsb (λ step, same_inputs input_ids (uses_ids (dmf w) step)) steps), w).
Proof.
  induction steps as [|step rest IH]; [done|]. cbn.
  unfold bind, find_related_outgoing. fold (uses_ids (dmf w) step).
  destruct (same_inputs input_ids (uses_ids (dmf w) step)); [done|]. apply IH.
Qed.

Lemma check_existing_spec (step_name : string) (inputs : option (list Dataset)) (w : World) :
  check_existing step_name inputs w
  = match requested_ids inputs with
    | inl e => (inl e, w)
    | inr input_ids =>
        (inr (existsb (λ step, same_inputs input_ids (uses_ids (dmf w) step))
                (named step_name (dmf w))), w)
    end.
Proof.
  unfold check_existing, bind, lift, find.
  destruct (requested_ids inputs); [done|]. apply find_existing_spec.
Qed.

Lemma same_inputs_true (input_ids : option (gset (option rid))) (X : gset (option rid)) :
  same_inputs input_ids X = true ↔ X = default ∅ input_ids.
Proof.
  destruct input_ids as [ids|]; cbn.
  - by rewrite bool_decide_eq_true.
  - rewrite Nat.eqb_eq. split.
    + intros H. by apply size_empty_inv, leibniz_equiv in H.
    + intros ->. apply size_empty.
Qed.

Lemma link_inputs_spec (this_step : Resource) (l : list Dataset) (w w' : World) :
  for_each l (λ input_, create_relation this_step uses (resource input_)) w = (inr (), w') →
  ∃ rs, Forall2 attached l rs
        ∧ w' = {| dmf := dmf w;
                  pending := pending w ++
                    ((λ r, {| subject := id_ this_step; predicate := uses; object := id_ r |})
                       <$> rs);
                  next_id := next_id w; calls := calls w |}.
Proof.
  revert w. induction l as [|ds l IH]; intros w; cbn.
  - intros [= <-]. exists []. split; [constructor|]. destruct w; cbn. by rewrite app_nil_r.
  - unfold bind, resource, create_relation.
    destruct (_meta ds !! "resource") as [[| | | |r]|] eqn:E; cbn; try discriminate.
    intros H. apply IH in H as (rs & HF & ->). exists (r :: rs). split.
    + by constructor.
    + cbn. by rewrite <- app_assoc.
Qed.

Lemma link_inputs_ok (this_step : Resource) (l : list Dataset) (rs : list Resource)
    (w : World) :
  Forall2 attached l rs →
  for_each l (λ input_, create_relation this_step uses (resource input_)) w
  = (inr (), {| dmf := dmf w;
                pending := pending w ++
                  ((λ r, {| subject := id_ this_step; predicate := uses; object := id_ r |})
                     <$> rs);
                next_id := next_id w; calls := calls w |}).
Proof.
  intros HF. revert w. induction HF as [|ds r l rs Hds _ IH]; intros w; cbn.
  - destruct w; cbn. by rewrite app_nil_r.
  - unfold bind, resource, create_relation. rewrite Hds; cbn.
    rewrite IH; cbn. by rewrite <- app_assoc.
Qed.

Lemma output_resources_cons (step_name : string) (first_id : rid)
    (key dir_path : string) (files : list string)
    (items : list (string * (string * list string))) :
  output_resources step_name first_id ((key, (dir_path, files)) :: items)
  = {| id_ := first_id; r_name := key;
       r_desc := "Output files for processing step " +:+ step_name;
       datafiles := datafiles_of files; datafiles_dir := dir_path |}
    :: output_resources step_name (N.succ first_id) items.
Proof.
  unfold output_resources. rewrite imap_cons. f_equal.
  - f_equal. lia.
  - apply imap_ext. intros i [k [d f]] _; cbn. f_equal. lia.
Qed.

Lemma add_outputs_spec (step_name : string) (this_step : Resource)
    (items : list (string * (string * list string))) (w : World) :
  add_outputs step_name this_step items w
  = (inr (),
     let outs := output_resources step_name (next_id w) items in
     {| dmf := {| workspace_path := workspace_path (dmf w);
                  resources := resources (dmf w) ++ outs;
                  relations := relations (dmf w) |};
        pending := pending w ++
          ((λ r, {| subject := id_ r; predicate := derived; object := id_ this_step |})
             <$> outs);
        next_id := (next_id w + N.of_nat (List.length items))%N;
        calls := calls w |}).
Proof.
  unfold add_outputs. revert w.
  induction items as [|[key [dir_path files]] items IH]; intros w.
  - destruct w as [[] ? ? ?]; cbn. rewrite !app_nil_r, N.add_0_r. reflexivity.
  - rewrite output_resources_cons. cbn. unfold bind at 1 2; cbn.
    rewrite IH; cbn. rewrite <- !app_assoc; cbn.
    replace (N.succ (next_id w) + N.of_nat (List.length items))%N
      with (next_id w + N.pos (Pos.of_succ_nat (List.length items)))%N by lia.
    reflexivity.
Qed.

Lemma run_unfold (self : ManagedWorkflow) (method : StepFunction) (inputs : Inputs)
    (skip_check : bool) (args : list PyObj) (kwargs : gmap string PyObj) (w : World) :
  run self method inputs skip_check args kwargs w
  = match (if skip_check then (inr false, w)
           else check_existing (step_name_of method) (normalize_inputs inputs) w) with
    | (inl e, w') => (inl e, w')
    | (inr true, w') => (inr None, w')
    | (inr false, w') => execute_step method (normalize_inputs inputs) args kwargs w'
    end.
Proof.
  unfold run, bind at 1. destruct skip_check; [done|].
  destruct (check_existing _ _ w) as [[e|[|]] w']; done.
Qed.

Lemma execute_step_inv (method : StepFunction) (inputs : option (list Dataset))
    (args : list PyObj) (kwargs : gmap string PyObj) (w w1 : World) (out : Outputs) :
  execute_step method inputs args kwargs w = (inr out, w1) →
  out = None
  ∧ ∃ outputs rs,
      call method inputs args kwargs = inr outputs
      ∧ Forall2 attached (default [] inputs) rs
      ∧ w1 = ran_world w (step_name_of method) inputs rs args kwargs outputs.
Proof.
  unfold execute_step, bind at 1, invoke.
  destruct (call method inputs args kwargs) as [e|outputs] eqn:Hcall; [done|].
  unfold bind at 1, new_resource; cbn [next_id dmf pending calls].
  unfold bind at 1, dmf_add, set_dmf; cbn [next_id dmf pending calls resources relations
                                            workspace_path].
  unfold bind at 1.
  match goal with
  | |- context [for_each ?l ?f ?w0] => destruct (for_each l f w0) as [[e|[]] w'] eqn:Hlink
  end; [done|].
  apply link_inputs_spec in Hlink as (rs & HF & ->).
  unfold bind at 1. rewrite add_outputs_spec.
  cbn. intros [= <- <-]. split; [done|]. by exists outputs, rs.
Qed.

Lemma execute_step_ok (method : StepFunction) (inputs : option (list Dataset))
    (args : list PyObj) (kwargs : gmap string PyObj) (w : World)
    (outputs : Outputs) (rs : list Resource) :
  call method inputs args kwargs = inr outputs →
  Forall2 attached (default [] inputs) rs →
  execute_step method inputs args kwargs w
  = (inr None, ran_world w (step_name_of method) inputs rs args kwargs outputs).
Proof.
  intros Hcall HF.
  unfold execute_step, bind at 1, invoke. rewrite Hcall.
  unfold bind at 1, new_resource; cbn [next_id dmf pending calls].
  unfold bind at 1, dmf_add, set_dmf; cbn [next_id dmf pending calls resources relations
                                            workspace_path].
  unfold bind at 1. rewrite (link_inputs_ok _ _ rs) by done.
  unfold bind at 1. rewrite add_outputs_spec. reflexivity.
Qed.

Lemma rmapM_resource_id (l : list Dataset) (rs : list Resource) :
  Forall2 attached l rs → rmapM resource_id l = inr ((Some ∘ id_) <$> rs).
Proof.
  induction 1 as [|ds r l rs Hds _ IH]; [done|]. cbn.
  unfold resource_id at 1. rewrite Hds; cbn. by rewrite IH.
Qed.

Lemma requested_ids_attached (inputs : option (list Dataset)) (rs : list Resource) :
  Forall2 attached (default [] inputs) rs →
  ∃ ids, requested_ids inputs = inr ids
         ∧ default ∅ ids = list_to_set ((Some ∘ id_) <$> rs).
Proof.
  destruct inputs as [l|]; cbn; intros HF.
  - rewrite (rmapM_resource_id _ _ HF); cbn. eauto.
  - apply Forall2_nil_inv_l in HF as ->. eauto.
Qed.

(** The step resource that an executed [run] leaves has exactly the
    inputs' resources as [uses] targets. *)
Lemma ran_world_uses (w : World) (step_name : string) (inputs : option (list Dataset))
    (rs : list Resource) (args : list PyObj) (kwargs : gmap string PyObj)
    (outputs : Outputs) :
  store_wf w →
  uses_ids (dmf (ran_world w step_name inputs rs args kwargs outputs))
    (step_resource step_name (next_id w))
  = list_to_set ((Some ∘ id_) <$> rs).
Proof.
  intros Hwf. apply set_eq; intros x.
  rewrite uses_ids_elem, elem_of_list_to_set, list_elem_of_fmap. cbn. split.
  - intros (rel & Hin & Hs & Hp & ->).
    rewrite !elem_of_app in Hin. destruct Hin as [Hin|[[Hin|Hin]|Hin]].
    + specialize (Hwf rel). rewrite elem_of_app in Hwf. specialize (Hwf (or_introl Hin)). lia.
    + specialize (Hwf rel). rewrite elem_of_app in Hwf. specialize (Hwf (or_intror Hin)). lia.
    + apply list_elem_of_fmap in Hin as (r & -> & Hr). by exists r.
    + apply list_elem_of_fmap in Hin as (r & -> & Hr). done.
  - intros (r & -> & Hr).
    exists {| subject := next_id w; predicate := uses; object := id_ r |}.
    repeat split; try done.
    rewrite !elem_of_app. right; left; right.
    apply list_elem_of_fmap. by exists r.
Qed.

Lemma ran_world_step_named (w : World) (step_name : string) (inputs : option (list Dataset))
    (rs : list Resource) (args : list PyObj) (kwargs : gmap string PyObj)
    (outputs : Outputs) :
  step_resource step_name (next_id w)
  ∈ named step_name (dmf (ran_world w step_name inputs rs args kwargs outputs)).
Proof.
  unfold named. apply list_elem_of_In, List.filter_In. split.
  - apply list_elem_of_In. cbn. rewrite !elem_of_app. left; right. apply list_elem_of_here.
  - cbn. apply String.eqb_refl.
Qed.

(** Whenever [run] returns with the check on, the store holds a step of
    that name whose [uses] targets are the requested identifiers, and
    running again changes nothing. *)
Lemma run_again_noop (self : ManagedWorkflow) (method : StepFunction) (inputs : Inputs)
    (args : list PyObj) (kwargs : gmap string PyObj) (w w1 : World) (out : Outputs) :
  store_wf w →
  run self method inputs false args kwargs w = (inr out, w1) →
  run self method inputs false args kwargs w1 = (inr None, w1)
  ∧ ∃ step ids,
      requested_ids (normalize_inputs inputs) = inr ids
      ∧ step ∈ named (step_name_of method) (dmf w1)
      ∧ uses_ids (dmf w1) step = default ∅ ids.
Proof.
  intros Hwf. rewrite !run_unfold, !check_existing_spec.
  destruct (requested_ids (normalize_inputs inputs)) as [e|ids] eqn:Hids; [done|].
  destruct (existsb _ (named _ (dmf w))) eqn:Hex.
  - intros [= <- <-]. rewrite Hex. split; [done|].
    apply List.existsb_exists in Hex as (step & Hin & Hsame).
    exists step, ids. repeat split; [by apply list_elem_of_In|by apply same_inputs_true].
  - intros Hrun. apply execute_step_inv in Hrun as (-> & outputs & rs & Hcall & HF & ->).
    destruct (requested_ids_attached _ _ HF) as (ids' & Hids' & Hset).
    rewrite Hids in Hids'. simplify_eq.
    pose proof (ran_world_uses w (step_name_of method) (normalize_inputs inputs)
                  rs args kwargs outputs Hwf) as Huses.
    pose proof (ran_world_step_named w (step_name_of method) (normalize_inputs inputs)
                  rs args kwargs outputs) as Hnamed.
    rewrite <- Hset in Huses.
    assert (existsb
              (λ step, same_inputs ids'
                 (uses_ids (dmf (ran_world w (step_name_of method)
                    (normalize_inputs inputs) rs args kwargs outputs)) step))
              (named (step_name_of method)
                 (dmf (ran_world w (step_name_of method) (normalize_inputs inputs)
                    rs args kwargs outputs))) = true) as ->.
    { apply List.existsb_exists. eexists. split; [by apply list_elem_of_In|].
      by apply same_inputs_true. }
    split; [done|]. eauto.
Qed.

Lemma recorded_then_skipped (self : ManagedWorkflow) (method : StepFunction)
    (inputs : Inputs) (args : list PyObj) (kwargs : gmap string PyObj) (w : World)
    (ids : option (gset (option rid))) (step : Resource) :
  requested_ids (normalize_inputs inputs) = inr ids →
  step ∈ named (step_name_of method) (dmf w) →
  uses_ids (dmf w) step = default ∅ ids →
  run self method inputs false args kwargs w = (inr None, w).
Proof.
  intros Hids Hin Huses. rewrite run_unfold, check_existing_spec, Hids.
  assert (existsb (λ step, same_inputs ids (uses_ids (dmf w) step))
            (named (step_name_of method) (dmf w)) = true) as ->; [|done].
  apply List.existsb_exists. exists step. split; [by apply list_elem_of_In|].
  by apply same_inputs_true.
Qed.

Lemma not_recorded_then_executed (self : ManagedWorkflow) (method : StepFunction)
    (inputs : Inputs) (args : list PyObj) (kwargs : gmap string PyObj) (w : World)
    (ids : option (gset (option rid))) :
  requested_ids (normalize_inputs inputs) = inr ids →
  (∀ step, step ∈ named (step_name_of method) (dmf w) →
           uses_ids (dmf w) step ≠ default ∅ ids) →
  check_existing (step_name_of method) (normalize_inputs inputs) w = (inr false, w).
Proof.
  intros Hids Hno. rewrite check_existing_spec, Hids.
  destruct (existsb _ _) eqn:Hex; [|done].
  apply List.existsb_exists in Hex as (step & Hin & Hsame).
  apply same_inputs_true in Hsame. by destruct (Hno step); [apply list_elem_of_In|].
Qed.

Lemma normalize_inputs_datasets (inputs : Inputs) :
  default [] (normalize_inputs inputs) = input_datasets inputs
  ∧ normalize_inputs inputs = match inputs with
                              | inputs_None => None
                              | _ => Some (input_datasets inputs)
                              end.
Proof. by destruct inputs. Qed.

(** C1, as the claim states it, fails in two ways. A step function that
    raises is not recorded, so both calls invoke it; and in a store that
    already records the step with these inputs, two further calls do not
    invoke it at all. *)
Lemma run_twice_not_always_once :
  (let w1 := (run sample_workflow failing_step inputs_None false [] ∅ empty_world).2 in
   let w2 := (run sample_workflow failing_step inputs_None false [] ∅ w1).2 in
   List.length (calls w2) = 2 ∧ resources (dmf w2) = [] ∧ relations (dmf w2) = [])
  ∧ (let v0 := (run sample_workflow sample_step (inputs_one sample_input) false [] ∅
                  empty_world).2 in
     let v1 := (run sample_workflow sample_step (inputs_one sample_input) false [] ∅ v0).2 in
     let v2 := (run sample_workflow sample_step (inputs_one sample_input) false [] ∅ v1).2 in
     calls v2 = calls v0).
Proof. repeat split; reflexivity. Qed.

(** C1, amended. Take input datasets whose attached resources are [rs],
    with identifiers [I], a store whose identifiers are fresh and that
    records no step named [s] with [uses] targets [I], and a first call
    of [run] with the check on that returns. Then the step function has
    been invoked exactly once, with these datasets, and a second call
    with the same step function and inputs finds a step resource named
    [s] whose [uses] targets are [I] and returns [None] with the whole
    state unchanged: no invocation, no resource, no relation. *)
Theorem run_twice_executes_once (self : ManagedWorkflow) (method : StepFunction)
    (inputs : Inputs) (rs : list Resource) (args : list PyObj)
    (kwargs : gmap string PyObj) (w w1 : World) (out : Outputs) :
  let I : gset (option rid) := list_to_set ((Some ∘ id_) <$> rs) in
  store_wf w →
  Forall2 attached (input_datasets inputs) rs →
  (∀ step, step ∈ named (step_name_of method) (dmf w) → uses_ids (dmf w) step ≠ I) →
  run self method inputs false args kwargs w = (inr out, w1) →
  calls w1 = calls w ++ [{| call_step := step_name_of method;
                            call_inputs := match inputs with
                                           | inputs_None => None
                                           | _ => Some (input_datasets inputs)
                                           end;
                            call_args := args; call_kwargs := kwargs |}]
  ∧ run self method inputs false args kwargs w1 = (inr None, w1)
  ∧ ∃ step, step ∈ named (step_name_of method) (dmf w1) ∧ uses_ids (dmf w1) step = I.
Proof.
  intros I Hwf HF Hnever Hrun.
  destruct (normalize_inputs_datasets inputs) as [Hds Hnorm].
  rewrite <- Hds in HF.
  destruct (requested_ids_attached _ _ HF) as (ids & Hids & Hset). fold I in Hset.
  rewrite <- Hset in Hnever.
  pose proof (not_recorded_then_executed self method inputs args kwargs w ids Hids Hnever)
    as Hcheck.
  destruct (run_again_noop self method inputs args kwargs w w1 out Hwf Hrun)
    as (Hagain & step & ids' & Hids' & Hin & Huses).
  rewrite Hids in Hids'. injection Hids' as <-.
  split; [|split; [done|]].
  - rewrite run_unfold, Hcheck in Hrun.
    apply execute_step_inv in Hrun as (_ & outputs & rs' & _ & _ & ->).
    cbn. by rewrite Hnorm.
  - exists step. by rewrite <- Hset.
Qed.

Lemma run_twice_executes_once_witness :
  let I : gset (option rid) := list_to_set ((Some ∘ id_) <$> [sample_resource 7%N "data"]) in
  let w1 := (run sample_workflow sample_step (inputs_seq [sample_input]) false [] ∅
               empty_world).2 in
  calls w1 = calls empty_world ++
               [{| call_step := step_name_of sample_step;
                   call_inputs := Some (input_datasets (inputs_seq [sample_input]));
                   call_args := []; call_kwargs := ∅ |}]
  ∧ run sample_workflow sample_step (inputs_seq [sample_input]) false [] ∅ w1
    = (inr None, w1)
  ∧ ∃ step, step ∈ named (step_name_of sample_step) (dmf w1) ∧ uses_ids (dmf w1) step = I.
Proof.
  apply (run_twice_executes_once sample_workflow sample_step (inputs_seq [sample_input])
           [sample_resource 7%N "data"] [] ∅ empty_world _ None).
  - intros rel H. by apply elem_of_nil in H.
  - repeat constructor.
  - intros step H. by apply elem_of_nil in H.
  - reflexivity.
Defined.

Lemma link_inputs_calls (this_step : Resource) (l : list Dataset) (w : World) :
  calls (for_each l (λ input_, create_relation this_step uses (resource input_)) w).2
  = calls w.
Proof.
  revert w. induction l as [|ds l IH]; intros w; [done|]. cbn.
  unfold bind, resource, create_relation.
  destruct (_meta ds !! "resource") as [[| | | |r]|]; cbn; try done.
  by rewrite IH.
Qed.

(** Executing a step invokes the step function once, whatever follows. *)
Lemma execute_step_calls (method : StepFunction) (inputs : option (list Dataset))
    (args : list PyObj) (kwargs : gmap string PyObj) (w : World) :
  calls (execute_step method inputs args kwargs w).2
  = calls w ++ [{| call_step := step_name_of method; call_inputs := inputs;
                   call_args := args; call_kwargs := kwargs |}].
Proof.
  unfold execute_step, bind at 1, invoke.
  destruct (call method inputs args kwargs) as [e|outputs]; [done|].
  unfold bind at 1, new_resource; cbn [next_id dmf pending calls].
  unfold bind at 1, dmf_add, set_dmf; cbn [next_id dmf pending calls resources relations
                                            workspace_path].
  unfold bind at 1.
  match goal with
  | |- context [for_each ?l ?f ?w0] =>
      pose proof (link_inputs_calls {| id_ := next_id w; r_name := step_name_of method;
                                       r_desc := "Processing step " +:+ step_name_of method;
                                       datafiles := []; datafiles_dir := "" |}
                    (default [] inputs) w0) as Hc;
      destruct (for_each l f w0) as [[e|[]] w'] eqn:Hlink
  end; cbn in Hc; [done|].
  unfold bind at 1. rewrite add_outputs_spec. cbn. done.
Qed.

(** C2, as the claim states it, fails: the step function returns an
    outputs mapping, the step is executed, and [run] returns [None];
    [run_script] with that step function as runner returns [None] too. *)
Lemma run_does_not_return_outputs :
  let outputs : Outputs := Some [("converted", ("/ws/out", ["a.csv"]))] in
  call sample_step (Some [sample_input]) [] ∅ = inr outputs
  ∧ List.length (calls (run sample_workflow sample_step (inputs_seq [sample_input])
                          false [] ∅ empty_world).2) = 1
  ∧ (run sample_workflow sample_step (inputs_seq [sample_input]) false [] ∅ empty_world).1
    = inr None
  ∧ (run_script resolve_id download_unavailable listdir_unavailable sample_step
       sample_workflow "run.py" None empty_world).1 = inr None
  ∧ (inr None : Result Outputs) ≠ inr outputs.
Proof. repeat split; try reflexivity. discriminate. Qed.

Section ManagedWorkflowProperties.
Variable resolve : Path → Path.
Variable rts_gmlc_download : option Value → Result Value.
Variable os_listdir : Value → Result (list string).
Variable rts_gmlc_runner : StepFunction.

Local Abbreviation run_the_script :=
  (run_script resolve rts_gmlc_download os_listdir rts_gmlc_runner).

(** The three branches of [run_script], by the resources named like
    the script dataset. *)
Lemma run_script_unfold (self : ManagedWorkflow) (filename : string)
    (collector : option OutputCollector) (w : World) :
  let path := path_join (path_join (workspace_path (dmf w)) "downloads") filename in
  let ds := script_dataset resolve path in
  run_the_script self filename collector w
  = match named (name ds) (dmf w) with
    | [] =>
        match _add_to_dmf resolve ds w with
        | (inr ds1, w1) =>
            run self rts_gmlc_runner (inputs_seq [ds1]) true [] (collector_kwargs collector) w1
        | (inl e, w1) => (inl e, w1)
        end
    | [r] =>
        match resource_setter (VResource r) ds with
        | (inr _, ds1) =>
            run self rts_gmlc_runner (inputs_seq [ds1]) false [] (collector_kwargs collector) w
        | (inl e, _) => (inl e, w)
        end
    | r :: r' :: rest =>
        (inl (ValueError ("Got " +:+ pretty (List.length (r :: r' :: rest))
                +:+ " resources for script configuration, expected at most one: "
                +:+ path_str path)), w)
    end.
Proof.
  intros path ds. unfold run_script, bind at 1, _download_path.
  unfold bind at 1, lift.
  change (DatasetFactory_init resolve rts_gmlc_download os_listdir "script")
    with (inr (B := kwargs_t → Result Dataset) (A := exn) (script_fn resolve)).
  unfold bind at 1, script_fn. rewrite lookup_singleton_eq.
  unfold bind at 1, find. fold path. fold (script_dataset resolve path). fold ds.
  unfold bind at 1.
  destruct (named (name ds) (dmf w)) as [|r [|r' rest]].
  - unfold bind at 1. destruct (_add_to_dmf resolve ds w) as [[e|ds1] w1]; done.
  - destruct (resource_setter (VResource r) ds) as [[e|[]] ds1]; done.
  - done.
Qed.

Lemma run_inv (self : ManagedWorkflow) (method : StepFunction) (inputs : Inputs)
    (skip_check : bool) (args : list PyObj) (kwargs : gmap string PyObj)
    (w w1 : World) (out : Outputs) :
  run self method inputs skip_check args kwargs w = (inr out, w1) →
  out = None
  ∧ (w1 = w
     ∨ ∃ outputs rs,
         call method (normalize_inputs inputs) args kwargs = inr outputs
         ∧ Forall2 attached (default [] (normalize_inputs inputs)) rs
         ∧ w1 = ran_world w (step_name_of method) (normalize_inputs inputs) rs
                  args kwargs outputs).
Proof.
  rewrite run_unfold. destruct skip_check.
  - intros H. apply execute_step_inv in H as (-> & outputs & rs & ? & ? & ->).
    split; [done|]. right. by exists outputs, rs.
  - rewrite check_existing_spec.
    destruct (requested_ids (normalize_inputs inputs)) as [e|ids]; [done|].
    destruct (existsb _ _).
    + intros [= <- <-]. split; [done|]. by left.
    + intros H. apply execute_step_inv in H as (-> & outputs & rs & ? & ? & ->).
      split; [done|]. right. by exists outputs, rs.
Qed.

(** C2, amended. [run] returns [None] whenever it returns, skipped or
    not: when the step is executed, the outputs mapping of the step
    function is recorded in the store (one resource per output key,
    with a [derived] relation to the step) and is not returned.
    [run_script] returns what [run] returns, so [None] as well. *)
Theorem run_returns_None (self : ManagedWorkflow) (method : StepFunction)
    (inputs : Inputs) (skip_check : bool) (args : list PyObj)
    (kwargs : gmap string PyObj) (filename : string)
    (collector : option OutputCollector) (w w1 : World) (out : Outputs) :
  (run self method inputs skip_check args kwargs w = (inr out, w1) →
     out = None
     ∧ (w1 = w
        ∨ ∃ outputs rs,
            call method (normalize_inputs inputs) args kwargs = inr outputs
            ∧ Forall2 attached (default [] (normalize_inputs inputs)) rs
            ∧ w1 = ran_world w (step_name_of method) (normalize_inputs inputs) rs
                     args kwargs outputs))
  ∧ (run_the_script self filename collector w = (inr out, w1) → out = None).
Proof.
  split; [apply run_inv|].
  rewrite run_script_unfold.
  destruct (named _ (dmf w)) as [|r [|r' rest]]; [| |done].
  - destruct (_add_to_dmf resolve _ w) as [[e|ds1] w']; [done|].
    intros H. by apply run_inv in H as [-> _].
  - destruct (resource_setter (VResource r) _) as [[e|[]] ds1]; [done|].
    intros H. by apply run_inv in H as [-> _].
Qed.

Lemma _add_to_dmf_script (path : Path) (w : World) :
  let ds := script_dataset resolve path in
  let r := {| id_ := next_id w; r_name := name ds; r_desc := "";
              datafiles := datafiles_of [path_name path];
              datafiles_dir := path_str (resolve (resolve (path_parent path))) |} in
  _add_to_dmf resolve ds w
  = (inr (resource_setter (VResource r) ds).2,
     {| dmf := {| workspace_path := workspace_path (dmf w);
                  resources := resources (dmf w) ++ [r];
                  relations := relations (dmf w) |};
        pending := pending w; next_id := N.succ (next_id w); calls := calls w |}).
Proof. reflexivity. Qed.

(** C6. [run_script] branches on the number of resources named like
    the script dataset. None: the dataset is persisted as a new
    resource of that name and attached, and the runner is executed
    without the check, hence invoked. One: that resource is attached
    and [run] is called with the check on. More: a [ValueError] (the
    specification's AmbiguousResourceError) is raised and the state is
    unchanged, so the runner is not invoked. *)
Theorem run_script_by_match_count (self : ManagedWorkflow) (filename : string)
    (collector : option OutputCollector) (w : World) :
  let path := path_join (path_join (workspace_path (dmf w)) "downloads") filename in
  let ds := script_dataset resolve path in
  let kwargs := collector_kwargs collector in
  match named (name ds) (dmf w) with
  | [] =>
      let r := {| id_ := next_id w; r_name := name ds; r_desc := "";
                  datafiles := datafiles_of [path_name path];
                  datafiles_dir := path_str (resolve (resolve (path_parent path))) |} in
      let ds1 := (resource_setter (VResource r) ds).2 in
      let w1 := {| dmf := {| workspace_path := workspace_path (dmf w);
                             resources := resources (dmf w) ++ [r];
                             relations := relations (dmf w) |};
                   pending := pending w; next_id := N.succ (next_id w);
                   calls := calls w |} in
      attached ds1 r
      ∧ run_the_script self filename collector w
        = run self rts_gmlc_runner (inputs_seq [ds1]) true [] kwargs w1
      ∧ run self rts_gmlc_runner (inputs_seq [ds1]) true [] kwargs w1
        = execute_step rts_gmlc_runner (Some [ds1]) [] kwargs w1
      ∧ calls (run_the_script self filename collector w).2
        = calls w ++ [{| call_step := step_name_of rts_gmlc_runner;
                         call_inputs := Some [ds1];
                         call_args := []; call_kwargs := kwargs |}]
  | [r] =>
      let ds1 := (resource_setter (VResource r) ds).2 in
      attached ds1 r
      ∧ run_the_script self filename collector w
        = run self rts_gmlc_runner (inputs_seq [ds1]) false [] kwargs w
  | _ :: _ :: _ =>
      ∃ msg, run_the_script self filename collector w = (inl (ValueError msg), w)
  end.
Proof.
  intros path ds kwargs.
  pose proof (run_script_unfold self filename collector w) as Hu.
  cbn zeta in Hu. fold path ds in Hu.
  destruct (named (name ds) (dmf w)) as [|r [|r' rest]].
  - intros r ds1 w1. rewrite Hu. subst ds. rewrite _add_to_dmf_script.
    subst r ds1 w1 kwargs. cbn [snd fst].
    split; [reflexivity|]. split; [reflexivity|]. split; [by rewrite run_unfold|].
    rewrite run_unfold. cbn [normalize_inputs]. by rewrite execute_step_calls.
  - intros ds1. rewrite Hu. split; reflexivity.
  - eexists. exact Hu.
Qed.
End ManagedWorkflowProperties.

(** C9. [run] with [inputs=None] and with an empty sequence of inputs
    decide alike: the check gives the same answer [b], each call returns
    at once when [b] holds and executes the step otherwise, and [b] holds
    exactly when some resource with the step's name has no outgoing
    [uses] relation. *)
Theorem no_inputs_same_decision (self : ManagedWorkflow) (method : StepFunction)
    (args : list PyObj) (kwargs : gmap string PyObj) (w : World) :
  ∃ b : bool,
    check_existing (step_name_of method) None w = (inr b, w)
    ∧ check_existing (step_name_of method) (Some []) w = (inr b, w)
    ∧ (b = true ↔ recorded_without_inputs (dmf w) (step_name_of method))
    ∧ run self method inputs_None false args kwargs w
      = (if b then (inr None, w) else execute_step method None args kwargs w)
    ∧ run self method (inputs_seq []) false args kwargs w
      = (if b then (inr None, w) else execute_step method (Some []) args kwargs w).
Proof.
  exists (existsb (λ step, same_inputs None (uses_ids (dmf w) step))
            (named (step_name_of method) (dmf w))).
  assert (check_existing (step_name_of method) (Some []) w
          = check_existing (step_name_of method) None w) as Heq.
  { assert (∀ X, same_inputs (Some (list_to_set [])) X = same_inputs None X) as Hsame.
    { intros X. apply Bool.eq_true_iff_eq. by rewrite !same_inputs_true. }
    rewrite !check_existing_spec. unfold requested_ids; cbn [rmapM rbind]. do 2 f_equal.
    induction (named _ _) as [|step l IH]; [done|]. cbn [existsb]. by rewrite IH, Hsame. }
  split; [by rewrite check_existing_spec|].
  split; [by rewrite Heq, check_existing_spec|].
  split.
  - rewrite List.existsb_exists. split.
    + intros (step & Hin & Hsame). apply same_inputs_true in Hsame; cbn in Hsame.
      apply List.filter_In in Hin as [Hin Hname]. exists step.
      split; [by apply list_elem_of_In|]. split; [by apply String.eqb_eq|].
      intros rel Hrel Hs Hp.
      assert (Some (object rel) ∈ uses_ids (dmf w) step) as Hx.
      { apply uses_ids_elem. by exists rel. }
      rewrite Hsame in Hx. by apply not_elem_of_empty in Hx.
    + intros (step & Hin & Hname & Hno). exists step. split.
      * apply List.filter_In. split; [by apply list_elem_of_In|by apply String.eqb_eq].
      * apply same_inputs_true; cbn. apply set_eq; intros x. split.
        -- intros (rel & Hrel & Hs & Hp & _)%uses_ids_elem. by destruct (Hno rel).
        -- intros H. by apply not_elem_of_empty in H.
  - rewrite !run_unfold. cbn [normalize_inputs]. rewrite Heq, check_existing_spec; cbn.
    split; by destruct (existsb _ _).
Qed.

Lemma empty_world_wf : store_wf empty_world.
Proof. intros rel H. by apply elem_of_nil in H. Qed.

Lemma output_resources_ids (step_name : string) (first_id : rid)
    (items : list (string * (string * list string))) (r : Resource) :
  r ∈ output_resources step_name first_id items →
  (first_id ≤ id_ r < first_id + N.of_nat (List.length items))%N.
Proof.
  unfold output_resources. intros (i & Hi)%list_elem_of_lookup.
  rewrite list_lookup_imap in Hi.
  destruct (items !! i) as [[key [dir_path files]]|] eqn:E; [|done].
  apply lookup_lt_Some in E. cbn in Hi. simplify_eq; cbn. lia.
Qed.

(** Freshness of identifiers is kept by every call of [run] that returns. *)
Lemma run_preserves_store_wf (self : ManagedWorkflow) (method : StepFunction)
    (inputs : Inputs) (skip_check : bool) (args : list PyObj)
    (kwargs : gmap string PyObj) (w w1 : World) (out : Outputs) :
  store_wf w →
  run self method inputs skip_check args kwargs w = (inr out, w1) →
  store_wf w1.
Proof.
  intros Hwf Hrun.
  apply run_inv in Hrun as [_ [->|(outputs & rs & _ & _ & ->)]]; [done|].
  intros rel. cbn. rewrite app_nil_r, !elem_of_app.
  intros [Hin|[[Hin|Hin]|Hin]].
  - specialize (Hwf rel). rewrite elem_of_app in Hwf. specialize (Hwf (or_introl Hin)). lia.
  - specialize (Hwf rel). rewrite elem_of_app in Hwf. specialize (Hwf (or_intror Hin)). lia.
  - apply list_elem_of_fmap in Hin as (r & -> & _). cbn. lia.
  - apply list_elem_of_fmap in Hin as (r & -> & Hr). cbn.
    apply output_resources_ids in Hr. lia.
Qed.

Lemma run_returns_None_witness :
  (None : Outputs) = None
  ∧ ((run sample_workflow sample_step (inputs_seq [sample_input]) false [] ∅ empty_world).2
     = empty_world
     ∨ ∃ outputs rs,
         call sample_step (normalize_inputs (inputs_seq [sample_input])) [] ∅ = inr outputs
         ∧ Forall2 attached (default [] (normalize_inputs (inputs_seq [sample_input]))) rs
         ∧ (run sample_workflow sample_step (inputs_seq [sample_input]) false [] ∅
              empty_world).2
           = ran_world empty_world (step_name_of sample_step)
               (normalize_inputs (inputs_seq [sample_input])) rs [] ∅ outputs).
Proof.
  apply (proj1 (run_returns_None resolve_id download_unavailable listdir_unavailable
                  sample_runner sample_workflow sample_step (inputs_seq [sample_input])
                  false [] ∅ "run.py" None empty_world _ None)).
  reflexivity.
Defined.


(** * Further properties of the module *)

(** ** Dataset and DatasetFactory *)

(** [from_resource] never fails: the dataset takes the resource's name,
    its ["directory"] and ["files"] come from the resource's datafiles,
    the resource is attached, [resource_id] is its identifier, and the
    setter refuses any further resource. *)
Theorem from_resource_attached (r : Resource) (v : Value) :
  ∃ ds,
    from_resource r = inr ds
    ∧ name ds = r_name r
    ∧ meta ds !! "directory" = Some (VStr (datafiles_dir r))
    ∧ meta ds !! "files" = Some (VList (df_path <$> datafiles r))
    ∧ resource ds = VResource r
    ∧ resource_id ds = inr (Some (id_ r))
    ∧ resource_setter v ds = (inl (ValueError resource_set_twice_msg), ds).
Proof.
  eexists. split; [reflexivity|].
  unfold meta, resource, resource_id, resource_setter, add_meta, Dataset_init; cbn.
  rewrite !lookup_insert_eq.
  rewrite (lookup_insert_ne _ "resource" "directory") by done.
  rewrite (lookup_insert_ne _ "files" "directory") by done.
  rewrite (lookup_insert_ne _ "resource" "files") by done.
  rewrite !lookup_insert_eq. done.
Qed.

(** [resource_id] of a dataset: [None] without a ["resource"] entry, the
    identifier of the resource the setter attached, and an
    [AttributeError] when the entry is not a resource (as [add_meta] can
    make it). *)
Theorem resource_id_cases (ds : Dataset) (r : Resource) (s : string) :
  _meta ds !! "resource" = None →
  resource_id ds = inr None
  ∧ resource_id (resource_setter (VResource r) ds).2 = inr (Some (id_ r))
  ∧ resource_id (add_meta "resource" (VStr s) ds) = inl (AttributeError "id")
  ∧ resource_id (add_meta "resource" VNone ds) = inl (AttributeError "id").
Proof.
  intros E. unfold resource_id, resource_setter, add_meta; rewrite E; cbn.
  rewrite !lookup_insert_eq. done.
Qed.

Lemma resource_id_cases_witness :
  resource_id (Dataset_init "d") = inr None
  ∧ resource_id (resource_setter (VResource (sample_resource 7%N "data")) (Dataset_init "d")).2
    = inr (Some 7%N)
  ∧ resource_id (add_meta "resource" (VStr "x") (Dataset_init "d")) = inl (AttributeError "id")
  ∧ resource_id (add_meta "resource" VNone (Dataset_init "d")) = inl (AttributeError "id").
Proof.
  apply (resource_id_cases (Dataset_init "d") (sample_resource 7%N "data") "x").
  reflexivity.
Defined.

Section FactoryTypes.
Variable resolve : Path → Path.
Variable rts_gmlc_download : option Value → Result Value.
Variable os_listdir : Value → Result (list string).

Lemma DatasetFactory_init_cases (type_ : string) :
  if bool_decide (type_ ∈ ["rts-gmlc"; "null"; "script"]) then
    ∃ create, DatasetFactory_init resolve rts_gmlc_download os_listdir type_ = inr create
  else
    DatasetFactory_init resolve rts_gmlc_download os_listdir type_
    = inl (KeyError ("Cannot create dataset of type '" +:+ type_ +:+ "'")).
Proof.
  unfold DatasetFactory_init, _get_factory_function, DatasetType_RTS_GMLC.
  case_bool_decide as Hin.
  - repeat (apply elem_of_cons in Hin as [->|Hin]); [cbn; eauto ..|].
    by apply elem_of_nil in Hin.
  - rewrite !not_elem_of_cons in Hin. destruct Hin as (H1 & H2 & H3 & _).
    apply String.eqb_neq in H1, H2, H3. by rewrite H1, H2, H3.
Qed.

(** [DatasetFactory] knows exactly three types: for ["rts-gmlc"],
    ["null"] and ["script"] the constructor succeeds, and for every other
    type it raises [KeyError] with the message naming the type. *)
Theorem factory_types (type_ : string) :
  (type_ ∈ ["rts-gmlc"; "null"; "script"] ↔
   ∃ create, DatasetFactory_init resolve rts_gmlc_download os_listdir type_ = inr create)
  ∧ (type_ ∉ ["rts-gmlc"; "null"; "script"] ↔
     DatasetFactory_init resolve rts_gmlc_download os_listdir type_
     = inl (KeyError ("Cannot create dataset of type '" +:+ type_ +:+ "'"))).
Proof.
  pose proof (DatasetFactory_init_cases type_) as H.
  case_bool_decide as Hin.
  - destruct H as [create H]. split; split; try done; [by eauto|].
    rewrite H. discriminate.
  - split; split; try done. intros [create Hc]. rewrite Hc in H. discriminate.
Qed.

(** The creation function of type ["null"] ignores its arguments: the
    dataset is named ["null"], has no metadata and no resource. *)
Theorem null_factory_dataset (kwargs : kwargs_t) :
  ∃ create ds,
    DatasetFactory_init resolve rts_gmlc_download os_listdir "null" = inr create
    ∧ create kwargs = inr ds
    ∧ name ds = "null" ∧ meta ds = ∅ ∧ resource ds = VNone ∧ resource_id ds = inr None.
Proof. eexists _, _. repeat split; reflexivity. Qed.

(** The creation function of type ["script"] needs a path: without the
    argument [path] it raises [TypeError], and with a [path] that is not a
    path object it raises [AttributeError]. *)
Theorem script_factory_needs_path (kwargs : kwargs_t) (s : string) :
  kwargs !! "path" = None →
  script_fn resolve kwargs
  = inl (TypeError "fn() missing 1 required positional argument: 'path'")
  ∧ script_fn resolve (<["path" := VStr s]> kwargs) = inl (AttributeError "name").
Proof.
  intros E. unfold script_fn. by rewrite E, lookup_insert_eq.
Qed.
End FactoryTypes.

Lemma script_factory_needs_path_witness :
  script_fn resolve_id {[ "target_path" := VPath sample_path ]}
  = inl (TypeError "fn() missing 1 required positional argument: 'path'")
  ∧ script_fn resolve_id (<["path" := VStr "run.py"]> {[ "target_path" := VPath sample_path ]})
    = inl (AttributeError "name").
Proof.
  apply (script_factory_needs_path resolve_id {[ "target_path" := VPath sample_path ]} "run.py").
  reflexivity.
Defined.

(** ** OutputCollector *)






Section CollectorDelivery.
Variable re_compile : string → Result Pattern.

(** Which constructor arguments give the collector a delimiter. What
    has [lower] is compiled when it is not empty: a string to a pattern
    over text, a bytes object to a pattern over bytes; an error of
    [re.compile] is raised as it is. A compiled pattern, of either kind,
    is kept as it is. [None], the empty string, the empty bytes object
    and any other falsy object leave the collector without [_delim]; a
    truthy object with neither [lower] nor [search] raises [TypeError]. *)
Theorem collector_delimiter_by_argument (phase_delim : PhaseDelim)
    (err_arg out_arg : StreamArg) :
  let init := OutputCollector_init re_compile phase_delim err_arg out_arg in
  match phase_delim with
  | PD_Pattern d => ∃ self, init = inr self ∧ _delim self = Some d
  | PD_Str s =>
      if String.eqb s "" then ∃ self, init = inr self ∧ _delim self = None
      else match re_compile s with
           | inr p => ∃ self, init = inr self ∧ _delim self = Some (str_pattern p)
           | inl e => init = inl e
           end
  | PD_Bytes [] => ∃ self, init = inr self ∧ _delim self = None
  | PD_Bytes b =>
      match re_compile (string_of_list_byte b) with
      | inr p => ∃ self, init = inr self ∧ _delim self = Some (bytes_pattern p)
      | inl e => init = inl e
      end
  | PD_None | PD_Other false => ∃ self, init = inr self ∧ _delim self = None
  | PD_Other true => ∃ msg, init = inl (TypeError msg)
  end.
Proof.
  destruct phase_delim as [|s|b|d|[|]]; cbn;
    try (eexists; split; reflexivity); try (eexists; reflexivity).
  - destruct s as [|c s]; cbn; [eexists; split; reflexivity|].
    destruct (re_compile (String c s)) as [e|p] eqn:E;
      unfold OutputCollector_init; rewrite E; cbn; [done|].
    eexists; split; reflexivity.
  - destruct b as [|c b]; [cbn; eexists; split; reflexivity|].
    unfold OutputCollector_init.
    destruct (re_compile (string_of_list_byte (c :: b))) as [e|p]; cbn; [done|].
    eexists; split; reflexivity.
Qed.

(** A delimiter given as bytes is accepted by the constructor, but its
    pattern cannot search text: every redirecting worker of such a
    collector writes its first line, when that is valid UTF-8, and is
    then ended by a [TypeError]; the remaining lines stay unread and the
    stream is not closed. *)
Theorem bytes_delimiter_ends_redirect (b : bytes) (p : Pattern)
    (err_arg out_arg : StreamArg) (self : OutputCollector)
    (dest : handle) (progress : option handle)
    (line : bytes) (rest : list bytes) (s : string) :
  b ≠ [] →
  re_compile (string_of_list_byte b) = inr p →
  OutputCollector_init re_compile (PD_Bytes b) err_arg out_arg = inr self →
  decode_utf8 line = Some s →
  _delim self = Some (bytes_pattern p)
  ∧ run_worker self (M_redirect dest progress) (line :: rest)
    = {| events := [dest_write dest s]; unread := rest; closed := false;
         raised := Some (TypeError "cannot use a bytes pattern on a string-like object") |}.
Proof.
  intros Hb Hc Hinit Hs.
  assert (_delim self = Some (bytes_pattern p)) as Hd.
  { unfold OutputCollector_init in Hinit. destruct b as [|c b]; [done|].
    rewrite Hc in Hinit. cbn in Hinit. by simplify_eq. }
  split; [done|]. cbn. by rewrite Hs, Hd.
Qed.



End CollectorDelivery.




(** ** ManagedWorkflow.run *)

(** With the check on, [run] returns at once, leaving the state as it
    is, when some resource named like the step has exactly the requested
    identifiers as [uses] targets, and executes the step when no such
    resource exists. *)
Theorem run_skips_exactly_when_recorded (self : ManagedWorkflow) (method : StepFunction)
    (inputs : Inputs) (args : list PyObj) (kwargs : gmap string PyObj) (w : World)
    (ids : option (gset (option rid))) :
  requested_ids (normalize_inputs inputs) = inr ids →
  ((∃ step, step ∈ named (step_name_of method) (dmf w)
            ∧ uses_ids (dmf w) step = default ∅ ids) →
   run self method inputs false args kwargs w = (inr None, w))
  ∧ ((∀ step, step ∈ named (step_name_of method) (dmf w) →
              uses_ids (dmf w) step ≠ default ∅ ids) →
     run self method inputs false args kwargs w
     = execute_step method (normalize_inputs inputs) args kwargs w).
Proof.
  intros Hids. split.
  - intros (step & Hin & Huses). by eapply recorded_then_skipped.
  - intros Hno. rewrite run_unfold.
    by rewrite (not_recorded_then_executed self method inputs args kwargs w ids).
Qed.

(** The memo key of [run] is the step's name and the set of input
    identifiers only: after a call that returned, a call with the inputs
    in another order or repeated, and with other [args] and [kwargs],
    returns [None] and leaves the state unchanged. *)
Theorem memo_ignores_order_and_arguments (self : ManagedWorkflow) (method : StepFunction)
    (inputs inputs2 : Inputs) (args args2 : list PyObj)
    (kwargs kwargs2 : gmap string PyObj) (w w1 : World) (out : Outputs) :
  store_wf w →
  run self method inputs false args kwargs w = (inr out, w1) →
  requested_ids (normalize_inputs inputs2) = requested_ids (normalize_inputs inputs) →
  run self method inputs2 false args2 kwargs2 w1 = (inr None, w1).
Proof.
  intros Hwf Hrun Hsame.
  destruct (run_again_noop self method inputs args kwargs w w1 out Hwf Hrun)
    as (_ & step & ids & Hids & Hin & Huses).
  eapply recorded_then_skipped; [by rewrite Hsame| |]; done.
Qed.

(** With [skip_check] set, [run] executes the step whatever the store
    records: the step function is invoked once more, and one more
    resource named like the step is added. *)
Theorem skip_check_records_again (self : ManagedWorkflow) (method : StepFunction)
    (inputs : Inputs) (args : list PyObj) (kwargs : gmap string PyObj)
    (w w1 : World) (out : Outputs) :
  run self method inputs true args kwargs w = (inr out, w1) →
  calls w1 = calls w ++ [{| call_step := step_name_of method;
                            call_inputs := normalize_inputs inputs;
                            call_args := args; call_kwargs := kwargs |}]
  ∧ (∃ extra, resources (dmf w1)
              = resources (dmf w) ++ step_resource (step_name_of method) (next_id w) :: extra)
  ∧ List.length (named (step_name_of method) (dmf w))
    < List.length (named (step_name_of method) (dmf w1)).
Proof.
  rewrite run_unfold. intros H.
  apply execute_step_inv in H as (-> & outputs & rs & _ & _ & ->).
  split; [done|]. split.
  - eexists. cbn. by rewrite <- app_assoc.
  - unfold named; cbn. rewrite !List.filter_app, !length_app; cbn.
    rewrite String.eqb_refl; cbn. lia.
Qed.

(** A step function that raises is not recorded: [run] raises its
    exception after the invocation, adds no resource and no relation,
    and the next call with the same inputs invokes the function again. *)
Theorem failed_step_is_run_again (self : ManagedWorkflow) (method : StepFunction)
    (inputs : Inputs) (args : list PyObj) (kwargs : gmap string PyObj)
    (w : World) (e : exn) :
  call method (normalize_inputs inputs) args kwargs = inl e →
  check_existing (step_name_of method) (normalize_inputs inputs) w = (inr false, w) →
  let c := {| call_step := step_name_of method; call_inputs := normalize_inputs inputs;
              call_args := args; call_kwargs := kwargs |} in
  let w1 := {| dmf := dmf w; pending := pending w; next_id := next_id w;
               calls := calls w ++ [c] |} in
  run self method inputs false args kwargs w = (inl e, w1)
  ∧ run self method inputs false args kwargs w1
    = (inl e, {| dmf := dmf w; pending := pending w; next_id := next_id w;
                 calls := (calls w ++ [c]) ++ [c] |}).
Proof.
  intros Hcall Hcheck c w1.
  assert (check_existing (step_name_of method) (normalize_inputs inputs) w1 = (inr false, w1))
    as Hcheck1.
  { pose proof Hcheck as Hc. rewrite check_existing_spec in Hc.
    rewrite check_existing_spec. subst w1; cbn.
    destruct (requested_ids (normalize_inputs inputs)); [done|].
    injection Hc as ->. done. }
  rewrite !run_unfold, Hcheck, Hcheck1.
  unfold execute_step, bind, invoke. by rewrite Hcall.
Qed.

Lemma run_skips_exactly_when_recorded_witness :
  let ids : option (gset (option rid)) := Some {[ Some 7%N ]} in
  ((∃ step, step ∈ named (step_name_of sample_step) (dmf empty_world)
            ∧ uses_ids (dmf empty_world) step = default ∅ ids) →
   run sample_workflow sample_step (inputs_one sample_input) false [] ∅ empty_world
   = (inr None, empty_world))
  ∧ ((∀ step, step ∈ named (step_name_of sample_step) (dmf empty_world) →
              uses_ids (dmf empty_world) step ≠ default ∅ ids) →
     run sample_workflow sample_step (inputs_one sample_input) false [] ∅ empty_world
     = execute_step sample_step (normalize_inputs (inputs_one sample_input)) [] ∅ empty_world).
Proof.
  apply (run_skips_exactly_when_recorded sample_workflow sample_step
           (inputs_one sample_input) [] ∅ empty_world (Some {[ Some 7%N ]})).
  vm_compute. reflexivity.
Defined.

Lemma memo_ignores_order_and_arguments_witness :
  let w1 := (run sample_workflow sample_step (inputs_seq [sample_input; sample_input2])
               false [] ∅ empty_world).2 in
  run sample_workflow sample_step (inputs_seq [sample_input2; sample_input; sample_input])
    false [ObjValue (VStr "other")] ∅ w1
  = (inr None, w1).
Proof.
  apply (memo_ignores_order_and_arguments sample_workflow sample_step
           (inputs_seq [sample_input; sample_input2])
           (inputs_seq [sample_input2; sample_input; sample_input])
           [] [ObjValue (VStr "other")] ∅ ∅ empty_world _ None).
  - intros rel H. by apply elem_of_nil in H.
  - reflexivity.
  - vm_compute. reflexivity.
Defined.

Lemma skip_check_records_again_witness :
  let w := (run sample_workflow sample_step (inputs_one sample_input) false [] ∅
              empty_world).2 in
  let w1 := (run sample_workflow sample_step (inputs_one sample_input) true [] ∅ w).2 in
  calls w1 = calls w ++ [{| call_step := step_name_of sample_step;
                            call_inputs := normalize_inputs (inputs_one sample_input);
                            call_args := []; call_kwargs := ∅ |}]
  ∧ (∃ extra, resources (dmf w1)
              = resources (dmf w) ++ step_resource (step_name_of sample_step) (next_id w) :: extra)
  ∧ List.length (named (step_name_of sample_step) (dmf w))
    < List.length (named (step_name_of sample_step) (dmf w1)).
Proof.
  apply (skip_check_records_again sample_workflow sample_step (inputs_one sample_input)
           [] ∅ _ _ None).
  reflexivity.
Defined.

Lemma failed_step_is_run_again_witness :
  let c := {| call_step := step_name_of failing_step;
              call_inputs := normalize_inputs inputs_None;
              call_args := []; call_kwargs := ∅ |} in
  let w1 := {| dmf := dmf empty_world; pending := pending empty_world;
               next_id := next_id empty_world; calls := calls empty_world ++ [c] |} in
  run sample_workflow failing_step inputs_None false [] ∅ empty_world
  = (inl (ExternalError "boom"), w1)
  ∧ run sample_workflow failing_step inputs_None false [] ∅ w1
    = (inl (ExternalError "boom"),
       {| dmf := dmf empty_world; pending := pending empty_world;
          next_id := next_id empty_world; calls := (calls empty_world ++ [c]) ++ [c] |}).
Proof.
  apply (failed_step_is_run_again sample_workflow failing_step inputs_None [] ∅
           empty_world (ExternalError "boom")).
  - reflexivity.
  - reflexivity.
Defined.

(** ** ManagedWorkflow.get_dataset and ManagedWorkflow._add_to_dmf *)

Lemma df_path_datafiles_of (files : list string) : df_path <$> datafiles_of files = files.
Proof. unfold datafiles_of. induction files as [|f l IH]; [done|]. cbn. by rewrite IH. Qed.

Lemma named_in (n : string) (d : DMF) (r : Resource) :
  r ∈ named n d ↔ r ∈ resources d ∧ r_name r = n.
Proof.
  unfold named. rewrite !list_elem_of_In, List.filter_In, String.eqb_eq. done.
Qed.

Section GetDataset.
Variable resolve : Path → Path.
Variable rts_gmlc_download : option Value → Result Value.
Variable os_listdir : Value → Result (list string).

Local Abbreviation get_the_dataset := (get_dataset resolve rts_gmlc_download os_listdir).

Lemma get_dataset_unfold (self : ManagedWorkflow) (type_ : string) (kwargs : kwargs_t)
    (w : World) :
  get_the_dataset self type_ kwargs w
  = match head (named type_ (dmf w)) with
    | Some r => (from_resource r, w)
    | None =>
        match DatasetFactory_init resolve rts_gmlc_download os_listdir type_ with
        | inl e => (inl e, w)
        | inr create =>
            if decide (is_Some (kwargs !! "target_path")) then
              (inl (TypeError "got multiple values for keyword argument 'target_path'"), w)
            else
              match create (<["target_path" :=
                               VPath (path_join (workspace_path (dmf w)) "downloads")]> kwargs)
              with
              | inl e => (inl e, w)
              | inr ds => _add_to_dmf resolve ds w
              end
        end
    end.
Proof.
  unfold get_dataset, bind, find_one, bind, find, ret, lift, _download_path, raise.
  destruct (head _); [done|].
  destruct (DatasetFactory_init _ _ _ _) as [e|create]; [done|].
  destruct (decide _); [done|]. by destruct (create _).
Qed.

(** Registering a dataset that has a list of files, a directory path and
    no resource: one resource is added, with a fresh identifier, the
    dataset's name, one datafile per file in order and the resolved
    directory; the resource is attached and the other metadata are
    kept. Reading that resource back with [from_resource] gives a
    dataset with the same name and files, and the resolved directory as
    a string. *)
Theorem add_to_dmf_then_from_resource (ds : Dataset) (files : list string) (p : Path)
    (w : World) :
  meta ds !! "files" = Some (VList files) →
  meta ds !! "directory" = Some (VPath p) →
  meta ds !! "resource" = None →
  let r := {| id_ := next_id w; r_name := name ds; r_desc := "";
              datafiles := datafiles_of files;
              datafiles_dir := path_str (resolve p) |} in
  ∃ ds1 ds2,
    _add_to_dmf resolve ds w
    = (inr ds1, {| dmf := {| workspace_path := workspace_path (dmf w);
                             resources := resources (dmf w) ++ [r];
                             relations := relations (dmf w) |};
                   pending := pending w; next_id := N.succ (next_id w);
                   calls := calls w |})
    ∧ name ds1 = name ds
    ∧ meta ds1 = <["resource" := VResource r]> (meta ds)
    ∧ from_resource r = inr ds2
    ∧ name ds2 = name ds
    ∧ meta ds2 !! "files" = Some (VList files)
    ∧ meta ds2 !! "directory" = Some (VStr (path_str (resolve p)))
    ∧ resource ds2 = VResource r.
Proof.
  intros Hf Hd Hr r. unfold meta in *.
  eexists _, _. split.
  { unfold _add_to_dmf. unfold bind at 1. unfold lift, meta. rewrite Hf; cbn.
    rewrite Hd; cbn. unfold resource_setter. rewrite Hr. reflexivity. }
  split; [done|]. split; [done|]. split; [reflexivity|].
  unfold resource, add_meta, Dataset_init; cbn.
  rewrite lookup_insert_ne by done. rewrite lookup_insert_eq.
  rewrite !(lookup_insert_ne _ _ "directory") by done.
  rewrite !lookup_insert_eq. by rewrite df_path_datafiles_of.
Qed.

(** Registering again a dataset that was read back from the store adds
    a second resource, a copy under a fresh identifier, and only then
    raises the setter's [ValueError]: the resource stays in the store. *)
Theorem add_to_dmf_twice_duplicates (r0 : Resource) (ds : Dataset) (w : World) :
  from_resource r0 = inr ds →
  let r := {| id_ := next_id w; r_name := r_name r0; r_desc := "";
              datafiles := datafiles_of (df_path <$> datafiles r0);
              datafiles_dir := path_str (resolve (Path_of_string (datafiles_dir r0))) |} in
  _add_to_dmf resolve ds w
  = (inl (ValueError resource_set_twice_msg),
     {| dmf := {| workspace_path := workspace_path (dmf w);
                  resources := resources (dmf w) ++ [r];
                  relations := relations (dmf w) |};
        pending := pending w; next_id := N.succ (next_id w); calls := calls w |}).
Proof. intros [= <-]. reflexivity. Qed.

(** [get_dataset] on a type for which the store has a resource of that
    name: the first such resource is read back with [from_resource], the
    creation arguments are ignored, no factory is consulted (the type
    need not be a known one), and the state is unchanged. *)
Theorem get_dataset_reuses_existing (self : ManagedWorkflow) (type_ : string)
    (kwargs : kwargs_t) (w : World) (r : Resource) (rest : list Resource) :
  named type_ (dmf w) = r :: rest →
  ∃ ds,
    get_the_dataset self type_ kwargs w = (inr ds, w)
    ∧ from_resource r = inr ds
    ∧ name ds = type_
    ∧ resource ds = VResource r.
Proof.
  intros Hn. eexists. split; [|split; [reflexivity|]].
  - by rewrite get_dataset_unfold, Hn.
  - split; [|reflexivity]. cbn.
    assert (r ∈ named type_ (dmf w)) as Hin by (rewrite Hn; apply list_elem_of_here).
    by apply named_in in Hin as [_ ?].
Qed.

(** [get_dataset] on a type the store has no resource for and the
    factory does not know raises the factory's [KeyError] and leaves the
    state unchanged; on a known type, a caller's own [target_path]
    argument raises [TypeError], again with the state unchanged. *)
Theorem get_dataset_errors (self : ManagedWorkflow) (type_ : string)
    (kwargs : kwargs_t) (w : World) :
  named type_ (dmf w) = [] →
  (type_ ∉ ["rts-gmlc"; "null"; "script"] →
   get_the_dataset self type_ kwargs w
   = (inl (KeyError ("Cannot create dataset of type '" +:+ type_ +:+ "'")), w))
  ∧ (type_ ∈ ["rts-gmlc"; "null"; "script"] → is_Some (kwargs !! "target_path") →
     get_the_dataset self type_ kwargs w
     = (inl (TypeError "got multiple values for keyword argument 'target_path'"), w)).
Proof.
  intros Hn. rewrite get_dataset_unfold, Hn; cbn.
  pose proof (DatasetFactory_init_cases resolve rts_gmlc_download os_listdir type_) as Hf.
  split.
  - intros Hnot. rewrite bool_decide_false in Hf by done. by rewrite Hf.
  - intros Hin Hk. rewrite bool_decide_true in Hf by done. destruct Hf as [create ->].
    by rewrite decide_True.
Qed.
End GetDataset.

Section GetDatasetCreates.
Variable resolve : Path → Path.
Variable rts_gmlc_download : option Value → Result Value.
Variable os_listdir : Value → Result (list string).

Local Abbreviation get_a_dataset := (get_dataset resolve rts_gmlc_download os_listdir).

(** [get_dataset("null")] on a store without a resource named ["null"]
    adds exactly one such resource, without datafiles, and returns the
    dataset with only that resource attached. Every later call, whatever
    its arguments, leaves the state unchanged and returns the dataset
    read back from that resource, which now also has the ["directory"]
    [""] and the empty ["files"] list. *)
Theorem get_dataset_null_created_once (self : ManagedWorkflow) (kwargs kwargs2 : kwargs_t)
    (w : World) :
  named "null" (dmf w) = [] →
  kwargs !! "target_path" = None →
  let r := {| id_ := next_id w; r_name := "null"; r_desc := "";
              datafiles := []; datafiles_dir := "" |} in
  let w1 := {| dmf := {| workspace_path := workspace_path (dmf w);
                         resources := resources (dmf w) ++ [r];
                         relations := relations (dmf w) |};
               pending := pending w; next_id := N.succ (next_id w); calls := calls w |} in
  get_a_dataset self "null" kwargs w
  = (inr {| name := "null"; _meta := {[ "resource" := VResource r ]} |}, w1)
  ∧ named "null" (dmf w1) = [r]
  ∧ get_a_dataset self "null" kwargs2 w1
    = (inr {| name := "null";
              _meta := <["resource" := VResource r]>
                         (<["files" := VList []]> (<["directory" := VStr ""]> ∅)) |}, w1).
Proof.
  intros Hn Hk r w1.
  assert (named "null" (dmf w1) = [r]) as Hn1.
  { unfold named in *. subst w1; cbn. by rewrite List.filter_app, Hn. }
  split; [|split; [done|]].
  - rewrite get_dataset_unfold, Hn; cbn.
    rewrite decide_False by (rewrite Hk; by intros [? ?]). reflexivity.
  - by rewrite get_dataset_unfold, Hn1.
Qed.

(** [get_dataset("rts-gmlc")] on a store without such a resource
    downloads into [<workspace>/downloads], lists the directory the
    downloader returns, and registers one resource with a datafile per
    listed file and that directory, resolved; the dataset returned has
    the directory, the files and the resource. An error of the
    downloader is raised as it is and leaves the state unchanged. *)
Theorem get_dataset_downloads_once (self : ManagedWorkflow) (kwargs : kwargs_t)
    (w : World) (d : string) (files : list string) (e : exn) :
  named "rts-gmlc" (dmf w) = [] →
  kwargs !! "target_path" = None →
  let target := Some (VPath (path_join (workspace_path (dmf w)) "downloads")) in
  (rts_gmlc_download target = inr (VStr d) → os_listdir (VStr d) = inr files →
   let r := {| id_ := next_id w; r_name := "rts-gmlc"; r_desc := "";
               datafiles := datafiles_of files;
               datafiles_dir := path_str (resolve (Path_of_string d)) |} in
   get_a_dataset self "rts-gmlc" kwargs w
   = (inr {| name := "rts-gmlc";
             _meta := <["resource" := VResource r]>
                        (<["files" := VList files]> (<["directory" := VStr d]> ∅)) |},
      {| dmf := {| workspace_path := workspace_path (dmf w);
                   resources := resources (dmf w) ++ [r];
                   relations := relations (dmf w) |};
         pending := pending w; next_id := N.succ (next_id w); calls := calls w |}))
  ∧ (rts_gmlc_download target = inl e →
     get_a_dataset self "rts-gmlc" kwargs w = (inl e, w)).
Proof.
  intros Hn Hk target.
  assert (get_a_dataset self "rts-gmlc" kwargs w
          = match download_fn rts_gmlc_download os_listdir "rts-gmlc"
                    (<["target_path" :=
                        VPath (path_join (workspace_path (dmf w)) "downloads")]> kwargs)
            with
            | inl e => (inl e, w)
            | inr ds => _add_to_dmf resolve ds w
            end) as ->.
  { rewrite get_dataset_unfold, Hn; cbn.
    by rewrite decide_False by (rewrite Hk; by intros [? ?]). }
  unfold download_fn. rewrite lookup_insert_eq. fold target. split.
  - intros Hdl Hls. rewrite Hdl; cbn. rewrite Hls; cbn.
    unfold _add_to_dmf, bind, lift, meta, add_meta, Dataset_init; cbn.
    rewrite lookup_insert_eq. rewrite lookup_insert_ne by done. rewrite lookup_insert_eq.
    cbn. unfold resource_setter; cbn.
    rewrite !lookup_insert_ne by done. rewrite lookup_empty. reflexivity.
  - intros Hdl. by rewrite Hdl.
Qed.
End GetDatasetCreates.

Lemma add_to_dmf_then_from_resource_witness :
  ∃ ds1 w1 ds2 r,
    _add_to_dmf resolve_id sample_unregistered empty_world = (inr ds1, w1)
    ∧ resource ds1 = VResource r
    ∧ from_resource r = inr ds2
    ∧ meta ds2 !! "files" = Some (VList ["a.csv"; "b.csv"])
    ∧ meta ds2 !! "directory" = Some (VStr "/ws/data").
Proof.
  destruct (add_to_dmf_then_from_resource resolve_id sample_unregistered
              ["a.csv"; "b.csv"] (Path_of_string "/ws/data") empty_world)
    as (ds1 & ds2 & H1 & _ & H3 & H4 & _ & H6 & H7 & _); [reflexivity ..|].
  eexists ds1, _, ds2, _. split; [exact H1|]. split; [|split; [exact H4|split; [exact H6|exact H7]]].
  unfold resource. unfold meta in H3. rewrite H3. by rewrite lookup_insert_eq.
Defined.

Lemma add_to_dmf_twice_duplicates_witness :
  ∃ w1,
    _add_to_dmf resolve_id
      {| name := "null";
         _meta := <["resource" := VResource (sample_resource 0%N "null")]>
                    (<["files" := VList []]> (<["directory" := VStr ""]> ∅)) |}
      null_world
    = (inl (ValueError resource_set_twice_msg), w1)
    ∧ List.length (resources (dmf w1)) = 2.
Proof.
  eexists. split.
  - apply (add_to_dmf_twice_duplicates resolve_id (sample_resource 0%N "null")). reflexivity.
  - reflexivity.
Defined.

Lemma get_dataset_reuses_existing_witness :
  ∃ ds,
    get_dataset resolve_id download_unavailable listdir_unavailable sample_workflow
      "null" {[ "anything" := VNone ]} null_world = (inr ds, null_world)
    ∧ from_resource (sample_resource 0%N "null") = inr ds
    ∧ name ds = "null"
    ∧ resource ds = VResource (sample_resource 0%N "null").
Proof.
  apply (get_dataset_reuses_existing resolve_id download_unavailable listdir_unavailable
           sample_workflow "null" {[ "anything" := VNone ]} null_world
           (sample_resource 0%N "null") []).
  reflexivity.
Defined.

Lemma get_dataset_errors_witness :
  get_dataset resolve_id download_unavailable listdir_unavailable sample_workflow
    "csv" ∅ empty_world
  = (inl (KeyError "Cannot create dataset of type 'csv'"), empty_world)
  ∧ get_dataset resolve_id download_unavailable listdir_unavailable sample_workflow
      "null" {[ "target_path" := VNone ]} empty_world
    = (inl (TypeError "got multiple values for keyword argument 'target_path'"), empty_world).
Proof.
  split.
  - apply (proj1 (get_dataset_errors resolve_id download_unavailable listdir_unavailable
                    sample_workflow "csv" ∅ empty_world eq_refl)).
    apply (proj1 (bool_decide_eq_false _)). reflexivity.
  - apply (proj2 (get_dataset_errors resolve_id download_unavailable listdir_unavailable
                    sample_workflow "null" {[ "target_path" := VNone ]} empty_world eq_refl)).
    + apply (proj1 (bool_decide_eq_true _)). reflexivity.
    + by eexists.
Defined.

Lemma get_dataset_null_created_once_witness :
  get_dataset resolve_id download_unavailable listdir_unavailable sample_workflow
    "null" ∅ empty_world
  = (inr {| name := "null"; _meta := {[ "resource" := VResource (sample_resource 0%N "null") ]} |},
     null_world)
  ∧ named "null" (dmf null_world) = [sample_resource 0%N "null"]
  ∧ get_dataset resolve_id download_unavailable listdir_unavailable sample_workflow
      "null" {[ "anything" := VNone ]} null_world
    = (inr {| name := "null";
              _meta := <["resource" := VResource (sample_resource 0%N "null")]>
                         (<["files" := VList []]> (<["directory" := VStr ""]> ∅)) |},
       null_world).
Proof.
  apply (get_dataset_null_created_once resolve_id download_unavailable listdir_unavailable
           sample_workflow ∅ {[ "anything" := VNone ]} empty_world).
  - reflexivity.
  - reflexivity.
Defined.

Lemma get_dataset_downloads_once_witness :
  ∃ ds w1,
    get_dataset resolve_id download_into_target listdir_two_files sample_workflow
      "rts-gmlc" ∅ empty_world = (inr ds, w1)
    ∧ meta ds !! "files" = Some (VList ["bus.csv"; "gen.csv"])
    ∧ ((λ r, df_path <$> datafiles r) <$> resources (dmf w1)) = [["bus.csv"; "gen.csv"]].
Proof.
  eexists _, _. split.
  - apply (proj1 (get_dataset_downloads_once resolve_id download_into_target listdir_two_files
                    sample_workflow ∅ empty_world "/ws/downloads/RTS-GMLC"
                    ["bus.csv"; "gen.csv"] (ExternalError "none") eq_refl
                    (lookup_empty "target_path"))).
    + reflexivity.
    + reflexivity.
  - split; reflexivity.
Defined.

(** ** ManagedWorkflow.run_script *)

Lemma ran_world_then_skipped (self : ManagedWorkflow) (method : StepFunction)
    (inputs : Inputs) (args args2 : list PyObj) (kwargs kwargs2 : gmap string PyObj)
    (w : World) (rs : list Resource) (outputs : Outputs) :
  store_wf w →
  Forall2 attached (default [] (normalize_inputs inputs)) rs →
  let w1 := ran_world w (step_name_of method) (normalize_inputs inputs) rs args kwargs
              outputs in
  run self method inputs false args2 kwargs2 w1 = (inr None, w1).
Proof.
  intros Hwf HF w1.
  destruct (requested_ids_attached _ _ HF) as (ids & Hids & Hset).
  eapply recorded_then_skipped; [exact Hids|apply ran_world_step_named|].
  rewrite Hset. by apply ran_world_uses.
Qed.

Lemma output_resources_not_named (step_name n : string) (first_id : rid)
    (items : list (string * (string * list string))) :
  n ∉ items.*1 →
  List.filter (λ r, String.eqb (r_name r) n) (output_resources step_name first_id items) = [].
Proof.
  revert first_id. induction items as [|[key [dir_path files]] items IH]; intros first_id;
    [done|].
  rewrite output_resources_cons. cbn. intros [Hk Hrest]%not_elem_of_cons.
  rewrite IH by done. apply not_eq_sym, String.eqb_neq in Hk. by rewrite Hk.
Qed.

Lemma components_no_slash (s : string) : no_slash s = true → components s = [s].
Proof.
  induction s as [|c s IH]; [done|]. cbn.
  intros [Hc Hs]%andb_prop. apply negb_true_iff in Hc. rewrite Hc, IH by done. done.
Qed.

Lemma parse_root_no_slash (s : string) : no_slash s = true → parse_root s = "".
Proof.
  destruct s as [|c s]; [done|]. cbn. intros [Hc _]%andb_prop.
  destruct c as [[] [] [] [] [] [] [] []]; try done.
Qed.

Lemma Path_of_plain_filename (s : string) :
  plain_filename s = true → Path_of_string s = {| root := ""; parts := [s] |}.
Proof.
  intros [Hs Hk]%andb_prop. unfold Path_of_string.
  rewrite parse_root_no_slash, components_no_slash by done. cbn. by rewrite Hk.
Qed.

Section RunScript.
Variable resolve : Path → Path.
Variable rts_gmlc_download : option Value → Result Value.
Variable os_listdir : Value → Result (list string).
Variable rts_gmlc_runner : StepFunction.

Local Abbreviation run_a_script :=
  (run_script resolve rts_gmlc_download os_listdir rts_gmlc_runner).

(** For a plain file name [f] (no directory part), the dataset
    [run_script] works on is named ["script:f"], lists the one file [f],
    and has the resolved [<workspace>/downloads] as directory; when the
    store has no resource of that name, the resource persisted before the
    runner is executed carries that name, the datafile [f] and that
    directory. *)
Theorem run_script_plain_filename (self : ManagedWorkflow) (filename : string)
    (collector : option OutputCollector) (w : World) :
  plain_filename filename = true →
  named ("script:" +:+ filename) (dmf w) = [] →
  let dl := {| root := root (workspace_path (dmf w));
               parts := parts (workspace_path (dmf w)) ++ ["downloads"] |} in
  let r := {| id_ := next_id w; r_name := "script:" +:+ filename; r_desc := "";
              datafiles := datafiles_of [filename];
              datafiles_dir := path_str (resolve (resolve dl)) |} in
  let ds1 := {| name := "script:" +:+ filename;
                _meta := <["resource" := VResource r]>
                           (<["files" := VList [filename]]>
                              (<["directory" := VPath (resolve dl)]> ∅)) |} in
  run_a_script self filename collector w
  = execute_step rts_gmlc_runner (Some [ds1]) [] (collector_kwargs collector)
      {| dmf := {| workspace_path := workspace_path (dmf w);
                   resources := resources (dmf w) ++ [r];
                   relations := relations (dmf w) |};
         pending := pending w; next_id := N.succ (next_id w); calls := calls w |}.
Proof.
  intros Hplain Hn dl r ds1.
  assert (path_join (path_join (workspace_path (dmf w)) "downloads") filename
          = {| root := root dl; parts := parts dl ++ [filename] |}) as Hpath.
  { unfold path_join at 1. rewrite Path_of_plain_filename by done. reflexivity. }
  assert (script_dataset resolve
            {| root := root dl; parts := parts dl ++ [filename] |}
          = {| name := "script:" +:+ filename;
               _meta := <["files" := VList [filename]]>
                          (<["directory" := VPath (resolve dl)]> ∅) |}) as Hds.
  { unfold script_dataset, path_name, path_parent, add_meta, Dataset_init.
    cbn [parts root name _meta].
    rewrite List.last_last, List.removelast_last. by destruct dl. }
  rewrite run_script_unfold. cbn zeta. rewrite Hpath, Hds. cbn [name]. rewrite Hn.
  rewrite <- Hds, _add_to_dmf_script, Hds. rewrite run_unfold.
  unfold path_name, path_parent. cbn [parts root].
  rewrite List.last_last, List.removelast_last.
  unfold resource_setter. cbn [_meta name snd].
  rewrite !lookup_insert_ne by done. rewrite lookup_empty. cbn [snd normalize_inputs].
  by destruct dl.
Qed.

(** [run_script] twice with the same file name, from a store with fresh
    identifiers and no resource named like the script dataset, when
    neither the runner's step name nor one of its output keys is that
    name: the first call that returns has invoked the runner once; the
    second call, whatever its collector, finds exactly one script
    resource, passes the check on it and returns [None] with the state
    unchanged. *)
Theorem run_script_twice_runs_once (self : ManagedWorkflow) (filename : string)
    (collector collector2 : option OutputCollector) (w w1 : World) (out : Outputs) :
  let path := path_join (path_join (workspace_path (dmf w)) "downloads") filename in
  let ds := script_dataset resolve path in
  store_wf w →
  named (name ds) (dmf w) = [] →
  step_name_of rts_gmlc_runner ≠ name ds →
  (∀ inputs args kwargs items,
     call rts_gmlc_runner inputs args kwargs = inr (Some items) → name ds ∉ items.*1) →
  run_a_script self filename collector w = (inr out, w1) →
  run_a_script self filename collector2 w1 = (inr None, w1)
  ∧ List.length (named (name ds) (dmf w1)) = 1
  ∧ List.length (calls w1) = S (List.length (calls w)).
Proof.
  intros path ds Hwf Hn Hstep Hkeys Hrun.
  rewrite run_script_unfold in Hrun. cbn zeta in Hrun. fold path in Hrun. fold ds in Hrun.
  rewrite Hn in Hrun. subst ds. rewrite _add_to_dmf_script in Hrun.
  set (ds := script_dataset resolve path) in *.
  set (r := {| id_ := next_id w; r_name := name ds; r_desc := "";
               datafiles := datafiles_of [path_name path];
               datafiles_dir := path_str (resolve (resolve (path_parent path))) |}) in *.
  set (wa := {| dmf := {| workspace_path := workspace_path (dmf w);
                          resources := resources (dmf w) ++ [r];
                          relations := relations (dmf w) |};
                pending := pending w; next_id := N.succ (next_id w);
                calls := calls w |}) in *.
  set (ds1 := (resource_setter (VResource r) ds).2) in *.
  assert (store_wf wa) as Hwfa.
  { intros rel Hrel. specialize (Hwf rel Hrel). subst wa; cbn. lia. }
  rewrite run_unfold in Hrun.
  apply execute_step_inv in Hrun as (-> & outputs & rs & Hcall & HF & ->).
  assert (named (name ds)
            (dmf (ran_world wa (step_name_of rts_gmlc_runner)
                    (normalize_inputs (inputs_seq [ds1])) rs [] (collector_kwargs collector)
                    outputs)) = [r]) as Hn1.
  { unfold named in *. cbn [ran_world dmf resources]. unfold wa at 1.
    cbn [dmf resources]. rewrite !List.filter_app, Hn.
    cbn [List.filter app step_resource r_name]. unfold r at 1. cbn [r_name].
    rewrite String.eqb_refl. apply String.eqb_neq in Hstep. rewrite Hstep.
    cbn [app]. rewrite output_resources_not_named; [done|].
    destruct outputs as [items|]; [by eapply Hkeys|]. cbn. apply not_elem_of_nil. }
  split; [|split].
  - rewrite run_script_unfold. cbn zeta.
    change (workspace_path (dmf (ran_world wa _ _ _ _ _ _))) with (workspace_path (dmf w)).
    fold path. fold ds. rewrite Hn1. fold ds1.
    rewrite (surjective_pairing (resource_setter (VResource r) ds)). fold ds1.
    assert ((resource_setter (VResource r) ds).1 = inr ()) as -> by reflexivity.
    by apply (ran_world_then_skipped self rts_gmlc_runner (inputs_seq [ds1])).
  - by rewrite Hn1.
  - cbn. rewrite length_app. cbn. lia.
Qed.
End RunScript.

Lemma run_script_plain_filename_witness :
  ∃ ds1 wa,
    run_script resolve_id download_unavailable listdir_unavailable sample_runner
      sample_workflow "run.py" None empty_world
    = execute_step sample_runner (Some [ds1]) [] (collector_kwargs None) wa
    ∧ name ds1 = "script:run.py"
    ∧ r_name <$> resources (dmf wa) = ["script:run.py"]
    ∧ datafiles_dir <$> resources (dmf wa) = ["/ws/downloads"].
Proof.
  eexists _, _. split.
  - apply (run_script_plain_filename resolve_id download_unavailable listdir_unavailable
             sample_runner sample_workflow "run.py" None empty_world).
    + reflexivity.
    + reflexivity.
  - repeat split; reflexivity.
Defined.

Lemma run_script_twice_runs_once_witness :
  let w1 := (run_script resolve_id download_unavailable listdir_unavailable sample_runner
               sample_workflow "run.py" None empty_world).2 in
  run_script resolve_id download_unavailable listdir_unavailable sample_runner
    sample_workflow "run.py" None w1 = (inr None, w1)
  ∧ List.length (named "script:run.py" (dmf w1)) = 1
  ∧ List.length (calls w1) = 1.
Proof.
  apply (run_script_twice_runs_once resolve_id download_unavailable listdir_unavailable
           sample_runner sample_workflow "run.py" None None empty_world _ None).
  - intros rel H. by apply elem_of_nil in H.
  - reflexivity.
  - vm_compute. discriminate.
  - intros inputs args kwargs items H. discriminate H.
  - reflexivity.
Defined.

(** ** The provenance graph left by [run] *)

(** A call of [run] that returns has either changed nothing or recorded
    the whole step: the step function was called with the caller's
    datasets, the step resource is in the store, the resource of every
    dataset the caller passed is the target of a pushed [uses] relation
    from the step,
    every output key has a resource with its directory and files and a
    pushed [derived] relation to the step, and no relation is left
    pending. *)
Theorem run_records_provenance (self : ManagedWorkflow) (method : StepFunction)
    (inputs : Inputs) (skip_check : bool) (args : list PyObj)
    (kwargs : gmap string PyObj) (w w1 : World) (out : Outputs) :
  run self method inputs skip_check args kwargs w = (inr out, w1) →
  w1 = w
  ∨ ∃ outputs,
      let step := step_resource (step_name_of method) (next_id w) in
      call method (match inputs with
                   | inputs_None => None
                   | _ => Some (input_datasets inputs)
                   end) args kwargs = inr outputs
      ∧ step ∈ resources (dmf w1)
      ∧ pending w1 = []
      ∧ (∀ input_, input_ ∈ input_datasets inputs →
           ∃ r, attached input_ r
                ∧ {| subject := id_ step; predicate := uses; object := id_ r |}
                  ∈ relations (dmf w1))
      ∧ (∀ key dir_path files, (key, (dir_path, files)) ∈ default [] outputs →
           ∃ r, r ∈ resources (dmf w1)
                ∧ r_name r = key ∧ datafiles_dir r = dir_path
                ∧ df_path <$> datafiles r = files
                ∧ {| subject := id_ r; predicate := derived; object := id_ step |}
                  ∈ relations (dmf w1)).
Proof.
  intros Hrun. apply run_inv in Hrun as [_ [->|(outputs & rs & Hcall & HF & ->)]];
    [by left|].
  destruct (normalize_inputs_datasets inputs) as [Hds Hnorm].
  rewrite Hds in HF. rewrite Hnorm in Hcall.
  right. exists outputs. cbn zeta. split; [done|]. split.
  { cbn. rewrite !elem_of_app. left; right. apply list_elem_of_here. }
  split; [done|]. split.
  - intros input_ (i & Hi)%list_elem_of_lookup.
    destruct (Forall2_lookup_l _ _ _ _ _ HF Hi) as (r & Hr & Hatt).
    exists r. split; [done|]. cbn. rewrite !elem_of_app. right; left; right.
    apply list_elem_of_fmap. exists r. split; [done|]. by eapply list_elem_of_lookup_2.
  - intros key dir_path files (i & Hi)%list_elem_of_lookup.
    set (r := {| id_ := (N.succ (next_id w) + N.of_nat i)%N; r_name := key;
                 r_desc := "Output files for processing step " +:+ step_name_of method;
                 datafiles := datafiles_of files; datafiles_dir := dir_path |}).
    assert (r ∈ output_resources (step_name_of method) (N.succ (next_id w))
                  (default [] outputs)) as Hr.
    { apply list_elem_of_lookup. exists i. unfold output_resources.
      by rewrite list_lookup_imap, Hi. }
    exists r. split; [|split; [done|split; [done|split]]].
    + cbn. rewrite !elem_of_app. by right.
    + apply df_path_datafiles_of.
    + cbn. rewrite !elem_of_app. right; right.
      apply list_elem_of_fmap. by exists r.
Qed.

Lemma run_records_provenance_witness :
  let w1 := (run sample_workflow sample_step (inputs_one sample_input) false [] ∅
               empty_world).2 in
  w1 = empty_world
  ∨ ∃ outputs,
      let step := step_resource (step_name_of sample_step) (next_id empty_world) in
      call sample_step (Some (input_datasets (inputs_one sample_input))) [] ∅ = inr outputs
      ∧ step ∈ resources (dmf w1)
      ∧ pending w1 = []
      ∧ (∀ input_, input_ ∈ input_datasets (inputs_one sample_input) →
           ∃ r, attached input_ r
                ∧ {| subject := id_ step; predicate := uses; object := id_ r |}
                  ∈ relations (dmf w1))
      ∧ (∀ key dir_path files, (key, (dir_path, files)) ∈ default [] outputs →
           ∃ r, r ∈ resources (dmf w1)
                ∧ r_name r = key ∧ datafiles_dir r = dir_path
                ∧ df_path <$> datafiles r = files
                ∧ {| subject := id_ r; predicate := derived; object := id_ step |}
                  ∈ relations (dmf w1)).
Proof.
  apply (run_records_provenance sample_workflow sample_step (inputs_one sample_input)
           false [] ∅ empty_world _ None).
  reflexivity.
Defined.

Lemma bytes_delimiter_ends_redirect_witness :
  ∃ self,
    OutputCollector_init re_literal (PD_Bytes (list_byte_of_string "PHASE"))
      ArgTrue (ArgDest "out.log") = inr self
    ∧ _delim self = Some (bytes_pattern {| search := has_substring "PHASE" |})
    ∧ run_worker self (M_redirect (opened "out.log") (Some sys_stdout))
        [line_of "a"; line_of "b"]
      = {| events := [dest_write (opened "out.log") (string_of_list_byte (line_of "a"))];
           unread := [line_of "b"]; closed := false;
           raised := Some (TypeError "cannot use a bytes pattern on a string-like object") |}.
Proof.
  eexists. split; [reflexivity|].
  apply (bytes_delimiter_ends_redirect re_literal (list_byte_of_string "PHASE")
           {| search := has_substring "PHASE" |} ArgTrue (ArgDest "out.log") _
           (opened "out.log") (Some sys_stdout) (line_of "a") [line_of "b"]).
  - discriminate.
  - reflexivity.
  - reflexivity.
  - reflexivity.
Defined.
